(** * Students and rooms: load, combine, serialize

    A shallow embedding of [solution.py]: two loaders (JSON, XML) read a
    students file and a rooms file, the processor attaches to every room
    the students that name it, two serializers (JSON, XML) render the
    result.

    Python objects are dynamically typed, so the fields of [Student] and
    [Room] hold values of [pyval], and the dataclass annotations are a
    predicate on records.  Exceptions are an explicit error type.  The list
    objects that rooms refer to live in an object store, so that two rooms
    holding the same list object share it.  The parsers of the standard
    library are a parameter; its printers and the built-ins the program
    calls are modelled. *)

From Stdlib Require Import ZArith String Ascii List DecimalString DecimalZ.
From stdpp Require Import gmap strings list fin_maps.

Local Open Scope Z_scope.
Local Open Scope string_scope.
Local Open Scope list_scope.

(** ** Python values

    The values [json.load] can put into a field: [None], booleans, integers,
    strings, lists and string-keyed dicts (kept in insertion order).  Text is
    a Rocq [string]; the character with code [n] stands for the code point
    [n].  Floating-point numbers are outside the model. *)

#[warnings="-register-all"]
Inductive pyval :=
  | PNone
  | PBool (b : bool)
  | PInt (z : Z)
  | PStr (s : string)
  | PList (items : list pyval)
  | PDict (entries : list (string * pyval)).

#[global] Instance pyval_eq_dec : EqDecision pyval.
Proof.
  refine (fix go (a b : pyval) {struct a} : Decision (a = b) :=
    match a, b with
    | PNone, PNone => left _
    | PBool x, PBool y => cast_if (decide (x = y))
    | PInt x, PInt y => cast_if (decide (x = y))
    | PStr x, PStr y => cast_if (decide (x = y))
    | PList xs, PList ys => cast_if (@list_eq_dec _ go xs ys)
    | PDict xs, PDict ys =>
        cast_if (@list_eq_dec _ (@prod_eq_dec _ _ _ go) xs ys)
    | _, _ => right _
    end); congruence.
Defined.

(** ** Exceptions and the computation monad *)

Inductive exn :=
  | OSError (path : string)          (* open() on a missing file *)
  | JSONDecodeError                  (* json.load on text that is not JSON *)
  | ParseError                       (* ET.ParseError *)
  | KeyError (key : string)          (* d[key] on a dict without [key] *)
  | TypeError
  | AttributeError                   (* None.text *)
  | ValueError (msg : string).

Inductive result (A : Type) :=
  | Ok (a : A)
  | Err (e : exn).
Arguments Ok {A} a.
Arguments Err {A} e.

#[global] Instance exn_eq_dec : EqDecision exn.
Proof. solve_decision. Defined.

#[global] Instance result_eq_dec `{EqDecision A} : EqDecision (result A).
Proof. solve_decision. Defined.

Definition rbind {A B} (r : result A) (f : A → result B) : result B :=
  match r with Ok a => f a | Err e => Err e end.

(** Student list objects live in the store; a location is an index. *)
Abbreviation loc := nat.

Module Student.
Record t := new { id : pyval; name : pyval; room_id : pyval }.
End Student.

Module Room.
Record t := new { id : pyval; name : pyval; students : loc }.
End Room.

#[global] Instance Student_eq_dec : EqDecision Student.t.
Proof. solve_decision. Defined.

#[global] Instance Room_eq_dec : EqDecision Room.t.
Proof. solve_decision. Defined.

Abbreviation heap := (list (list Student.t)).

(** A computation reads and updates the store and may raise. *)
Definition M (A : Type) : Type := heap → result (A * heap).

Definition ret {A} (a : A) : M A := λ h, Ok (a, h).
Definition raise {A} (e : exn) : M A := λ _, Err e.
Definition bind {A B} (m : M A) (f : A → M B) : M B :=
  λ h, match m h with Ok (a, h') => f a h' | Err e => Err e end.
Definition lift {A} (r : result A) : M A :=
  λ h, match r with Ok a => Ok (a, h) | Err e => Err e end.

Declare Scope py_scope.
Delimit Scope py_scope with py.
Notation "x <- m ;; k" := (bind m (λ x, k))
  (at level 100, m at next level, right associativity) : py_scope.
Local Open Scope py_scope.

(** [for x in xs: acc = body(acc, x)] *)
Fixpoint for_each {A S} (xs : list A) (body : S → A → M S) (acc : S) : M S :=
  match xs with
  | [] => ret acc
  | x :: xs' => acc' <- body acc x;; for_each xs' body acc'
  end.

(** [[f(x) for x in xs]] *)
Fixpoint comprehension {A B} (f : A → M B) (xs : list A) : M (list B) :=
  match xs with
  | [] => ret []
  | x :: xs' => y <- f x;; ys <- comprehension f xs';; ret (y :: ys)
  end.

(** [list()] / [[]]: a fresh, empty list object. *)
Definition new_list : M loc := λ h, Ok (List.length h, h ++ [[]]).

(** [l.append(s)] *)
Definition list_append (l : loc) (s : Student.t) : M unit :=
  λ h, Ok (tt, alter (λ xs, xs ++ [s]) l h).

(** The list object a room refers to.  A reference is always live in
    Python; a location outside the store reads as the empty list. *)
Definition deref (h : heap) (l : loc) : list Student.t := default [] (h !! l).

(** ** Dict keys

    [hash(v)] raises [TypeError] for lists and dicts; [True] and [1],
    [False] and [0] are the same key. *)

Inductive hkey :=
  | KNone
  | KInt (z : Z)
  | KStr (s : string).

Global Instance hkey_eq_dec : EqDecision hkey.
Proof. solve_decision. Defined.

Global Instance hkey_countable : Countable hkey.
Proof.
  refine (inj_countable'
    (λ k, match k with
          | KNone => inl tt
          | KInt z => inr (inl z)
          | KStr s => inr (inr s)
          end)
    (λ x, match x with
          | inl _ => KNone
          | inr (inl z) => KInt z
          | inr (inr s) => KStr s
          end) _).
  by intros [].
Defined.

Definition py_hash (v : pyval) : result hkey :=
  match v with
  | PNone => Ok KNone
  | PBool b => Ok (KInt (if b then 1 else 0))
  | PInt z => Ok (KInt z)
  | PStr s => Ok (KStr s)
  | PList _ | PDict _ => Err TypeError
  end.

(** ** Python built-ins used by the program *)

Definition chr (n : nat) : string := String (ascii_of_nat n) "".
Definition ord (c : ascii) : nat := nat_of_ascii c.

Definition hex_digit (n : nat) : ascii :=
  ascii_of_nat (if (n <? 10)%nat then 48 + n else 87 + n)%nat.

(** [format(n, "02x")] for a code point below 256. *)
Definition hex2 (n : nat) : string :=
  String (hex_digit (n / 16)) (String (hex_digit (n mod 16)) "").

Definition str_map (f : ascii → string) (s : string) : string :=
  String.concat "" (map f (list_ascii_of_string s)).

Definition str_contains (c : ascii) (s : string) : bool :=
  existsb (Ascii.eqb c) (list_ascii_of_string s).

(** [s.replace(c, by)] for a one-character [c]. *)
Definition str_replace (c : ascii) (by_ : string) (s : string) : string :=
  str_map (λ x, if Ascii.eqb x c then by_ else String x "") s.

(** [bool(v)] *)
Definition py_truthy (v : pyval) : bool :=
  match v with
  | PNone => false
  | PBool b => b
  | PInt z => negb (z =? 0)%Z
  | PStr s => negb (String.eqb s "")
  | PList items => negb (forallb (λ _, false) items)
  | PDict entries => negb (forallb (λ _, false) entries)
  end.

(** [str(z)] for an integer: decimal digits, [-] for negative numbers. *)
Definition str_of_int (z : Z) : string := NilZero.string_of_int (Z.to_int z).

(** [c.isprintable()] for a code point below 256. *)
Definition is_printable (n : nat) : bool :=
  ((32 <=? n) && (n <? 127) || (161 <=? n) && negb (n =? 173))%nat.

(** [repr(s)] for a string: single quotes unless [s] has a single quote and
    no double quote. *)
Definition repr_char (quote : ascii) (c : ascii) : string :=
  let n := ord c in
  if Ascii.eqb c quote || Ascii.eqb c "\" then String "\" (String c "")
  else if (n =? 9)%nat then "\t"
  else if (n =? 10)%nat then "\n"
  else if (n =? 13)%nat then "\r"
  else if is_printable n then String c ""
  else "\x" +:+ hex2 n.

Definition repr_str (s : string) : string :=
  let quote : ascii :=
    if str_contains "'" s && negb (str_contains (ascii_of_nat 34) s)
    then ascii_of_nat 34 else "'"%char in
  String quote (str_map (repr_char quote) s) +:+ String quote "".

(** [repr(v)] *)
Fixpoint py_repr (v : pyval) : string :=
  match v with
  | PNone => "None"
  | PBool b => if b then "True" else "False"
  | PInt z => str_of_int z
  | PStr s => repr_str s
  | PList items => "[" +:+ String.concat ", " (map py_repr items) +:+ "]"
  | PDict entries =>
      "{" +:+ String.concat ", "
                (map (λ kv, repr_str (fst kv) +:+ ": " +:+ py_repr (snd kv))
                   entries) +:+ "}"
  end.

(** [str(v)] *)
Definition py_str (v : pyval) : string :=
  match v with
  | PStr s => s
  | _ => py_repr v
  end.

(** White space as [int()] skips it, for code points below 256: the ASCII
    white space of C and the two other spaces of that range. *)
Definition is_space (c : ascii) : bool :=
  let n := ord c in
  ((9 <=? n) && (n <=? 13) || (n =? 32) || (n =? 133) || (n =? 160))%nat.

Fixpoint lstrip (s : list ascii) : list ascii :=
  match s with
  | c :: s' => if is_space c then lstrip s' else s
  | [] => []
  end.

Definition strip (s : list ascii) : list ascii :=
  rev (lstrip (rev (lstrip s))).

Definition is_digit (c : ascii) : bool :=
  let n := ord c in ((48 <=? n) && (n <=? 57))%nat.

(** Digits with single underscores between them: [prev] tells whether the
    previous character was a digit. *)
Fixpoint digits_ok (prev : bool) (s : list ascii) : bool :=
  match s with
  | [] => prev
  | c :: s' =>
      if is_digit c then digits_ok true s'
      else if Ascii.eqb c "_" then prev && digits_ok false s'
      else false
  end.

Definition strip_underscores (s : list ascii) : list ascii :=
  List.filter (λ c, negb (Ascii.eqb c "_")) s.

(** The value of a string of decimal digits. *)
Definition int_of_digits (s : list ascii) : option Z :=
  if digits_ok false s then
    Z.of_uint <$> NilEmpty.uint_of_string
                    (string_of_list_ascii (strip_underscores s))
  else None.

(** [int(s)] for a string, base 10: optional white space around an
    optional sign and the digits.  The interpreter's limit on the number
    of digits is not modelled. *)
Definition int_of_str (s : string) : option Z :=
  match strip (list_ascii_of_string s) with
  | c :: body =>
      if Ascii.eqb c "-" then Z.opp <$> int_of_digits body
      else if Ascii.eqb c "+" then int_of_digits body
      else int_of_digits (c :: body)
  | [] => None
  end.

(** [int(v)] *)
Definition py_int (v : pyval) : result Z :=
  match v with
  | PInt z => Ok z
  | PBool b => Ok (if b then 1 else 0)
  | PStr s =>
      match int_of_str s with
      | Some z => Ok z
      | None =>
          Err (ValueError
                 ("invalid literal for int() with base 10: " +:+ repr_str s))
      end
  | PNone | PList _ | PDict _ => Err TypeError
  end.

(** [iter(v)]: the items a [for] loop or comprehension visits. *)
Definition py_iter (v : pyval) : result (list pyval) :=
  match v with
  | PList items => Ok items
  | PDict entries => Ok (map (λ kv, PStr (fst kv)) entries)
  | PStr s => Ok (map (λ c, PStr (String c "")) (list_ascii_of_string s))
  | PNone | PBool _ | PInt _ => Err TypeError
  end.

Fixpoint dict_get (entries : list (string * pyval)) (key : string)
  : option pyval :=
  match entries with
  | [] => None
  | (k, v) :: rest => if String.eqb k key then Some v else dict_get rest key
  end.

(** [v[key]] for a string [key]: only a dict can be indexed by a string. *)
Definition py_getitem (v : pyval) (key : string) : result pyval :=
  match v with
  | PDict entries =>
      match dict_get entries key with
      | Some x => Ok x
      | None => Err (KeyError key)
      end
  | _ => Err TypeError
  end.

(** ** The [json] module: [json.dumps(v, indent=n)] *)

Module json.

(** One character of a string literal with [ensure_ascii]. *)
Definition escape_char (c : ascii) : string :=
  let n := ord c in
  if (n =? 34)%nat then String "\" (chr 34)
  else if (n =? 92)%nat then "\\"
  else if (n =? 8)%nat then "\b"
  else if (n =? 12)%nat then "\f"
  else if (n =? 10)%nat then "\n"
  else if (n =? 13)%nat then "\r"
  else if (n =? 9)%nat then "\t"
  else if ((32 <=? n) && (n <=? 126))%nat then String c ""
  else "\u00" +:+ hex2 n.

Definition encode_str (s : string) : string :=
  chr 34 +:+ str_map escape_char s +:+ chr 34.

Fixpoint spaces (n : nat) : string :=
  match n with O => "" | S n' => String " " (spaces n') end.

(** ['\n' + indent * level] *)
Definition newline_indent (indent level : nat) : string :=
  chr 10 +:+ spaces (indent * level).

Fixpoint encode (indent level : nat) (v : pyval) : string :=
  match v with
  | PNone => "null"
  | PBool b => if b then "true" else "false"
  | PInt z => str_of_int z
  | PStr s => encode_str s
  | PList [] => "[]"
  | PList items =>
      "[" +:+ newline_indent indent (S level)
      +:+ String.concat ("," +:+ newline_indent indent (S level))
            (map (encode indent (S level)) items)
      +:+ newline_indent indent level +:+ "]"
  | PDict [] => "{}"
  | PDict entries =>
      "{" +:+ newline_indent indent (S level)
      +:+ String.concat ("," +:+ newline_indent indent (S level))
            (map (λ kv, encode_str (fst kv) +:+ ": "
                        +:+ encode indent (S level) (snd kv)) entries)
      +:+ newline_indent indent level +:+ "}"
  end.

Definition dumps (v : pyval) (indent : nat) : string := encode indent 0 v.

End json.

(** ** The [xml.etree.ElementTree] module *)

Module ET.

(** An element without attributes or tail: its tag, its text (any object
    can be assigned to [.text]) and its child elements. *)
#[warnings="-register-all"]
Inductive Element := mk (tag : string) (text : pyval) (children : list Element).

Definition tag (e : Element) := let 'mk t _ _ := e in t.
Definition text (e : Element) := let 'mk _ x _ := e in x.
Definition children (e : Element) := let 'mk _ _ c := e in c.

(** [e.find(name)]: the first child with that tag. *)
Definition find (e : Element) (name : string) : option Element :=
  List.find (λ c, String.eqb (tag c) name) (children e).

(** [_escape_cdata] *)
Definition escape_cdata (text : pyval) : result string :=
  match text with
  | PStr s =>
      Ok (str_replace ">" "&gt;"
            (str_replace "<" "&lt;" (str_replace "&" "&amp;" s)))
  | _ => Err TypeError
  end.

Fixpoint sequence {A} (rs : list (result A)) : result (list A) :=
  match rs with
  | [] => Ok []
  | r :: rs' => rbind r (λ a, rbind (sequence rs') (λ l, Ok (a :: l)))
  end.

(** [_serialize_xml] with [short_empty_elements=True]. *)
Fixpoint serialize_xml (e : Element) : result string :=
  match e with
  | mk tag text children =>
      if py_truthy text || negb (forallb (λ _, false) children) then
        rbind (if py_truthy text then escape_cdata text else Ok "") (λ t,
        rbind (sequence (map serialize_xml children)) (λ cs,
        Ok ("<" +:+ tag +:+ ">" +:+ t +:+ String.concat "" cs
            +:+ "</" +:+ tag +:+ ">")))
      else Ok ("<" +:+ tag +:+ " />")
  end.

(** [ET.tostring(e, encoding="unicode")] *)
Definition tostring (e : Element) : result string := serialize_xml e.

End ET.
(** ** Files and the library's parsers

    A file system maps a path to the text of the file.  The parsers of the
    [json] and [xml.etree.ElementTree] modules are library code: they are a
    parameter of the development, [None] standing for text the parser
    rejects. *)

Abbreviation FileSystem := (gmap string string).

Class Library := {
  json_loads : string → option pyval;
  ET_fromstring : string → option ET.Element;
}.

Section loaders.
Context `{Library}.

(** [with open(path) as f: return json.load(f)] *)
Definition load_json (fs : FileSystem) (path : string) : result pyval :=
  match fs !! path with
  | None => Err (OSError path)
  | Some content =>
      match json_loads content with
      | Some doc => Ok doc
      | None => Err JSONDecodeError
      end
  end.

(** [ET.parse(path).getroot()] *)
Definition ET_parse (fs : FileSystem) (path : string) : result ET.Element :=
  match fs !! path with
  | None => Err (OSError path)
  | Some content =>
      match ET_fromstring content with
      | Some root => Ok root
      | None => Err ParseError
      end
  end.

End loaders.

(** [try: body except ET.ParseError: raise e] *)
Definition except_ParseError_raise {A} (body : M A) (e : exn) : M A :=
  λ h, match body h with
       | Err ParseError => Err e
       | r => r
       end.

(** The interface [DataLoader]. *)
Class DataLoader := {
  load : FileSystem → string → string → M (list Student.t * list Room.t);
}.

(** [Room(id, name)]: the [students] field gets a list of its own from
    [default_factory]. *)
Definition Room_init (id name : pyval) : M Room.t :=
  l <- new_list;; ret (Room.new id name l).

Module JsonDataLoader.
Section with_library.
Context `{Library}.

(** [Student(s["id"], s["name"], s["room"])] *)
Definition student_of (s : pyval) : M Student.t :=
  id <- lift (py_getitem s "id");;
  name <- lift (py_getitem s "name");;
  room <- lift (py_getitem s "room");;
  ret (Student.new id name room).

(** [Room(r["id"], r["name"])] *)
Definition room_of (r : pyval) : M Room.t :=
  id <- lift (py_getitem r "id");;
  name <- lift (py_getitem r "name");;
  Room_init id name.

Definition load (fs : FileSystem) (students_path rooms_path : string)
  : M (list Student.t * list Room.t) :=
  students_json <- lift (load_json fs students_path);;
  rooms_json <- lift (load_json fs rooms_path);;
  student_records <- lift (py_iter students_json);;
  students <- comprehension student_of student_records;;
  room_records <- lift (py_iter rooms_json);;
  rooms <- comprehension room_of room_records;;
  ret (students, rooms).

#[export] Instance loader : DataLoader := Build_DataLoader load.

End with_library.
End JsonDataLoader.

Module XmlDataLoader.
Section with_library.
Context `{Library}.

(** [el.find(name).text] *)
Definition find_text (el : ET.Element) (name : string) : result pyval :=
  match ET.find el name with
  | Some child => Ok (ET.text child)
  | None => Err AttributeError
  end.

(** [Student(id=int(el.find("id").text), name=el.find("name").text,
    room_id=int(el.find("room").text))] *)
Definition student_of (student_el : ET.Element) : M Student.t :=
  id <- lift (rbind (find_text student_el "id") py_int);;
  name <- lift (find_text student_el "name");;
  room_id <- lift (rbind (find_text student_el "room") py_int);;
  ret (Student.new (PInt id) name (PInt room_id)).

(** [Room(id=int(el.find("id").text), name=el.find("name").text)] *)
Definition room_of (room_el : ET.Element) : M Room.t :=
  id <- lift (rbind (find_text room_el "id") py_int);;
  name <- lift (find_text room_el "name");;
  Room_init (PInt id) name.

Definition parse_students (fs : FileSystem) (xml_path : string)
  : M (list Student.t) :=
  except_ParseError_raise
    (root <- lift (ET_parse fs xml_path);;
     comprehension student_of (ET.children root))
    (ValueError ("Error parsing XML file: " +:+ xml_path)).

Definition parse_rooms (fs : FileSystem) (xml_path : string)
  : M (list Room.t) :=
  except_ParseError_raise
    (root <- lift (ET_parse fs xml_path);;
     comprehension room_of (ET.children root))
    (ValueError ("Error parsing XML file: " +:+ xml_path)).

Definition load (fs : FileSystem) (students_path rooms_path : string)
  : M (list Student.t * list Room.t) :=
  students <- parse_students fs students_path;;
  rooms <- parse_rooms fs rooms_path;;
  ret (students, rooms).

#[export] Instance loader : DataLoader := Build_DataLoader load.

End with_library.
End XmlDataLoader.
(** ** RoomDataProcessor: the combine step *)

Module RoomDataProcessor.

(** [student_map[student.room_id].append(student)] on a
    [defaultdict(list)]: a missing key is first bound to a fresh list. *)
Definition group_student (student_map : gmap hkey loc) (student : Student.t)
  : M (gmap hkey loc) :=
  k <- lift (py_hash (Student.room_id student));;
  match student_map !! k with
  | Some l => _ <- list_append l student;; ret student_map
  | None =>
      l <- new_list;;
      _ <- list_append l student;;
      ret (<[k := l]> student_map)
  end.

(** [room.students = student_map.get(room.id, [])]: the default [[]] is
    built on every call, whether or not it is used.  The room is updated
    in place; no room object occurs twice in the list, so the updated
    record stands for the updated object. *)
Definition assign_students (student_map : gmap hkey loc) (room : Room.t)
  : M Room.t :=
  dflt <- new_list;;
  k <- lift (py_hash (Room.id room));;
  ret (Room.new (Room.id room) (Room.name room)
         (default dflt (student_map !! k))).

(** The body of [combine_rooms] after the load. *)
Definition combine (students : list Student.t) (rooms : list Room.t)
  : M (list Room.t) :=
  student_map <- for_each students group_student ∅;;
  comprehension (assign_students student_map) rooms.

(** [combine_rooms(self, students_path, rooms_path)], with the loader the
    processor was built with. *)
Definition combine_rooms (data_loader : DataLoader) (fs : FileSystem)
    (students_path rooms_path : string) : M (list Room.t) :=
  sr <- load fs students_path rooms_path;;
  combine sr.1 sr.2.

End RoomDataProcessor.
(** ** Serializers *)

(** The interface [DataSerializer]. *)
Class DataSerializer := {
  serialize : list Room.t → M string;
}.

(** [dataclasses.asdict]: a dict of the fields in declaration order, with
    dataclass instances inside lists converted too; field values are
    copied. *)
Definition asdict_student (s : Student.t) : pyval :=
  PDict [("id", Student.id s); ("name", Student.name s);
         ("room_id", Student.room_id s)].

Definition asdict_room (h : heap) (room : Room.t) : pyval :=
  PDict [("id", Room.id room); ("name", Room.name room);
         ("students", PList (map asdict_student (deref h (Room.students room))))].

Module JsonDataSerializer.

Definition serialize (combined_rooms : list Room.t) : M string :=
  λ h,
    let rooms_as_dictionary := PList (map (asdict_room h) combined_rooms) in
    Ok (json.dumps rooms_as_dictionary 4, h).

#[export] Instance serializer : DataSerializer := Build_DataSerializer serialize.

End JsonDataSerializer.

Module XmlDataSerializer.

(** The [Student] element built by the inner loop. *)
Definition student_element (student : Student.t) : ET.Element :=
  ET.mk "Student" PNone
    [ET.mk "id" (PStr (py_str (Student.id student))) [];
     ET.mk "name" (Student.name student) [];
     ET.mk "room" (PStr (py_str (Student.room_id student))) []].

(** The [Room] element built by the outer loop. *)
Definition room_element (h : heap) (room : Room.t) : ET.Element :=
  ET.mk "Room" PNone
    [ET.mk "id" (PStr (py_str (Room.id room))) [];
     ET.mk "name" (Room.name room) [];
     ET.mk "Students" PNone
       (map student_element (deref h (Room.students room)))].

Definition root_element (h : heap) (combined_rooms : list Room.t)
  : ET.Element :=
  ET.mk "Rooms" PNone (map (room_element h) combined_rooms).

Definition serialize (combined_rooms : list Room.t) : M string :=
  λ h, rbind (ET.tostring (root_element h combined_rooms))
         (λ out, Ok (out, h)).

#[export] Instance serializer : DataSerializer := Build_DataSerializer serialize.

End XmlDataSerializer.
(** ** [main]: the command line

    [parser.parse_args()] is library code: [main] is modelled from the
    parsed arguments on.  The process sees the files, may or may not be
    allowed to open a path for writing, and prints to standard output. *)

Module Args.
Record t := new {
  students_file : string;
  rooms_file : string;
  input_format : string;
  output_format : string;
  output_destination : option string;   (* [None] without [-d] *)
}.
End Args.

Record World := mkWorld {
  files : FileSystem;
  writable : string → bool;     (* [open(path, "w")] succeeds *)
  stdout : string;
}.

(** [print(text)] *)
Definition print (text : string) (w : World) : World :=
  mkWorld (files w) (writable w) (stdout w +:+ text +:+ chr 10).

(** [with open(path, "w") as f: f.write(text)] *)
Definition write_file (path text : string) (w : World) : result World :=
  if writable w path
  then Ok (mkWorld (<[path := text]> (files w)) (writable w) (stdout w))
  else Err (OSError path).

(** [bool(args.output_destination)]: no destination, or an empty one. *)
Definition destination (args : Args.t) : option string :=
  match Args.output_destination args with
  | Some path => if String.eqb path "" then None else Some path
  | None => None
  end.

Section main.
Context `{Library}.

(** The statements of [main] up to [output_data = ...]: they read the
    files and change nothing.  A fresh process starts with an empty
    store. *)
Definition output_data (args : Args.t) (fs : FileSystem) : result string :=
  rbind
    (if String.eqb (Args.input_format args) "json"
     then Ok JsonDataLoader.loader
     else if String.eqb (Args.input_format args) "xml"
     then Ok XmlDataLoader.loader
     else Err (ValueError ("Input format " +:+ Args.input_format args
                           +:+ " is not supported")))
    (λ data_loader,
  rbind
    (RoomDataProcessor.combine_rooms data_loader fs
       (Args.students_file args) (Args.rooms_file args) [])
    (λ combined,
  rbind
    (if String.eqb (Args.output_format args) "json"
     then Ok JsonDataSerializer.serializer
     else if String.eqb (Args.output_format args) "xml"
     then Ok XmlDataSerializer.serializer
     else Err (ValueError ("Output format " +:+ Args.output_format args
                           +:+ " is not supported")))
    (λ serializer,
  rbind (serialize combined.1 combined.2) (λ out, Ok out.1)))).

(** [main]: the world when the process ends, and how it ends. *)
Definition main (args : Args.t) (w : World) : World * result unit :=
  match output_data args (files w) with
  | Err e => (w, Err e)
  | Ok text =>
      match destination args with
      | Some path =>
          match write_file path text w with
          | Ok w' =>
              (print ("Wrote to " +:+ path +:+ " successfully!") w', Ok tt)
          | Err e => (w, Err e)
          end
      | None => (print text w, Ok tt)
      end
  end.

End main.
(** ** A reference implementation of the parsers

    A small instance of [Library], used to run the model on concrete files:
    JSON without floating-point numbers and with code points below 256,
    XML elements without attributes, comments or declarations.  Text of a
    form it does not cover is rejected. *)

Module RefLibrary.

Definition dq : ascii := ascii_of_nat 34.

(** [prefix] removed from the front of [s]. *)
Fixpoint after (prefix s : list ascii) : option (list ascii) :=
  match prefix, s with
  | [], _ => Some s
  | p :: prefix', c :: s' => if Ascii.eqb p c then after prefix' s' else None
  | _ :: _, [] => None
  end.

Definition chars (s : string) : list ascii := list_ascii_of_string s.

Definition hex_val (c : ascii) : option nat :=
  let n := ord c in
  if ((48 <=? n) && (n <=? 57))%nat then Some (n - 48)%nat
  else if ((97 <=? n) && (n <=? 102))%nat then Some (n - 87)%nat
  else if ((65 <=? n) && (n <=? 70))%nat then Some (n - 55)%nat
  else None.

(** *** JSON *)

Definition json_space (c : ascii) : bool :=
  let n := ord c in ((n =? 32) || (n =? 9) || (n =? 10) || (n =? 13))%nat.

Fixpoint skip_ws (s : list ascii) : list ascii :=
  match s with
  | c :: s' => if json_space c then skip_ws s' else s
  | [] => []
  end.

(** The character an escape sequence stands for, after the backslash. *)
Definition unescape (s : list ascii) : option (ascii * list ascii) :=
  match s with
  | "u"%char :: a :: b :: c :: d :: rest =>
      a ← hex_val a; b ← hex_val b; c ← hex_val c; d ← hex_val d;
      if ((a =? 0) && (b =? 0))%nat
      then Some (ascii_of_nat (16 * c + d), rest) else None
  | c :: rest =>
      let n := ord c in
      if ((n =? 34) || (n =? 92) || (n =? 47))%nat then Some (c, rest)
      else if Ascii.eqb c "b" then Some (ascii_of_nat 8, rest)
      else if Ascii.eqb c "f" then Some (ascii_of_nat 12, rest)
      else if Ascii.eqb c "n" then Some (ascii_of_nat 10, rest)
      else if Ascii.eqb c "r" then Some (ascii_of_nat 13, rest)
      else if Ascii.eqb c "t" then Some (ascii_of_nat 9, rest)
      else None
  | [] => None
  end.

(** A string literal, after its opening quote. *)
Fixpoint string_body (fuel : nat) (s : list ascii) (acc : list ascii)
  : option (string * list ascii) :=
  match fuel, s with
  | S fuel', c :: rest =>
      if Ascii.eqb c dq then Some (string_of_list_ascii (rev acc), rest)
      else if Ascii.eqb c "\" then
        '(x, rest') ← unescape rest; string_body fuel' rest' (x :: acc)
      else if (ord c <? 32)%nat then None
      else string_body fuel' rest (c :: acc)
  | _, _ => None
  end.

Fixpoint take_digits (s : list ascii) : list ascii * list ascii :=
  match s with
  | c :: s' =>
      if is_digit c
      then let '(ds, rest) := take_digits s' in (c :: ds, rest)
      else ([], s)
  | [] => ([], [])
  end.

(** An integer literal; a fraction or an exponent is not covered. *)
Definition number (s : list ascii) : option (pyval * list ascii) :=
  let '(neg, body) :=
    match s with "-"%char :: r => (true, r) | _ => (false, s) end in
  let '(ds, rest) := take_digits body in
  match ds, rest with
  | [], _ => None
  | "0"%char :: _ :: _, _ => None
  | _, c :: _ =>
      if Ascii.eqb c "." || Ascii.eqb c "e" || Ascii.eqb c "E" then None
      else z ← int_of_digits ds; Some (PInt (if neg then - z else z), rest)
  | _, [] => z ← int_of_digits ds; Some (PInt (if neg then - z else z), rest)
  end.

(** [d[k] = v] on an insertion-ordered dict. *)
Fixpoint dict_set (entries : list (string * pyval)) (k : string) (v : pyval)
  : list (string * pyval) :=
  match entries with
  | [] => [(k, v)]
  | (k', v') :: rest =>
      if String.eqb k' k then (k', v) :: rest
      else (k', v') :: dict_set rest k v
  end.

Abbreviation parser A := (list ascii → option (A * list ascii)).

(** The items of an array after [[], given the parser of one value. *)
Fixpoint elements (value : parser pyval) (fuel : nat) (s : list ascii)
    (acc : list pyval) : option (pyval * list ascii) :=
  match fuel with
  | O => None
  | S fuel' =>
      '(v, rest) ← value s;
      match skip_ws rest with
      | ","%char :: rest' => elements value fuel' rest' (acc ++ [v])
      | "]"%char :: rest' => Some (PList (acc ++ [v]), rest')
      | _ => None
      end
  end.

(** The members of an object after [{]. *)
Fixpoint members (value : parser pyval) (fuel : nat) (s : list ascii)
    (acc : list (string * pyval)) : option (pyval * list ascii) :=
  match fuel with
  | O => None
  | S fuel' =>
      match skip_ws s with
      | c :: rest =>
          if Ascii.eqb c dq then
            '(k, rest) ← string_body (List.length rest) rest [];
            match skip_ws rest with
            | ":"%char :: rest =>
                '(v, rest) ← value rest;
                match skip_ws rest with
                | ","%char :: rest' =>
                    members value fuel' rest' (dict_set acc k v)
                | "}"%char :: rest' => Some (PDict (dict_set acc k v), rest')
                | _ => None
                end
            | _ => None
            end
          else None
      | [] => None
      end
  end.

Fixpoint value (fuel : nat) (s : list ascii) : option (pyval * list ascii) :=
  match fuel with
  | O => None
  | S fuel' =>
      match skip_ws s with
      | [] => None
      | c :: rest =>
          if Ascii.eqb c dq then
            '(x, rest') ← string_body (List.length rest) rest [];
            Some (PStr x, rest')
          else if Ascii.eqb c "[" then
            match skip_ws rest with
            | "]"%char :: rest' => Some (PList [], rest')
            | _ => elements (value fuel') fuel' rest []
            end
          else if Ascii.eqb c "{" then
            match skip_ws rest with
            | "}"%char :: rest' => Some (PDict [], rest')
            | _ => members (value fuel') fuel' rest []
            end
          else
            match after (chars "null") (c :: rest),
                  after (chars "true") (c :: rest),
                  after (chars "false") (c :: rest) with
            | Some r, _, _ => Some (PNone, r)
            | _, Some r, _ => Some (PBool true, r)
            | _, _, Some r => Some (PBool false, r)
            | _, _, _ => number (c :: rest)
            end
      end
  end.

Definition json_loads (content : string) : option pyval :=
  let s := chars content in
  '(v, rest) ← value (S (List.length s)) s;
  match skip_ws rest with [] => Some v | _ => None end.

(** *** XML *)

Definition name_char (c : ascii) : bool :=
  let n := ord c in
  negb (is_space c) && (32 <? n)%nat
  && negb (Ascii.eqb c "<" || Ascii.eqb c ">" || Ascii.eqb c "/"
           || Ascii.eqb c "&" || Ascii.eqb c "=" || Ascii.eqb c dq
           || Ascii.eqb c "'").

Fixpoint take_name (s : list ascii) : list ascii * list ascii :=
  match s with
  | c :: s' =>
      if name_char c
      then let '(n, rest) := take_name s' in (c :: n, rest)
      else ([], s)
  | [] => ([], [])
  end.

Definition entity (s : list ascii) : option (ascii * list ascii) :=
  match after (chars "amp;") s, after (chars "lt;") s,
        after (chars "gt;") s, after (chars "quot;") s,
        after (chars "apos;") s with
  | Some r, _, _, _, _ => Some ("&"%char, r)
  | _, Some r, _, _, _ => Some ("<"%char, r)
  | _, _, Some r, _, _ => Some (">"%char, r)
  | _, _, _, Some r, _ => Some (dq, r)
  | _, _, _, _, Some r => Some ("'"%char, r)
  | _, _, _, _, _ => None
  end.

(** Character data up to the next [<]; line ends become a line feed. *)
Fixpoint char_data (fuel : nat) (s : list ascii) (acc : list ascii)
  : option (list ascii * list ascii) :=
  match fuel, s with
  | _, [] => Some (rev acc, [])
  | O, _ => None
  | S fuel', c :: rest =>
      let n := ord c in
      if Ascii.eqb c "<" then Some (rev acc, s)
      else if Ascii.eqb c "&" then
        '(x, rest') ← entity rest; char_data fuel' rest' (x :: acc)
      else if (n =? 13)%nat then
        match rest with
        | c' :: rest' =>
            if (ord c' =? 10)%nat
            then char_data fuel' rest' (ascii_of_nat 10 :: acc)
            else char_data fuel' rest (ascii_of_nat 10 :: acc)
        | [] => char_data fuel' rest (ascii_of_nat 10 :: acc)
        end
      else if ((n <? 32) && negb ((n =? 9) || (n =? 10)))%nat then None
      else char_data fuel' rest (c :: acc)
  end.

Definition text_of (data : list ascii) : pyval :=
  match data with [] => PNone | _ => PStr (string_of_list_ascii data) end.

(** Child elements and the closing tag of [name], after the text. *)
Fixpoint content (element : parser ET.Element) (name : list ascii)
    (fuel : nat) (s : list ascii) (acc : list ET.Element)
  : option (list ET.Element * list ascii) :=
  match fuel with
  | O => None
  | S fuel' =>
      match after (chars "</") s with
      | Some rest =>
          rest ← after name rest;
          match lstrip rest with
          | ">"%char :: rest' => Some (acc, rest')
          | _ => None
          end
      | None =>
          '(child, rest) ← element s;
          '(_, rest) ← char_data (List.length rest) rest [];
          content element name fuel' rest (acc ++ [child])
      end
  end.

Fixpoint element (fuel : nat) (s : list ascii)
  : option (ET.Element * list ascii) :=
  match fuel, s with
  | S fuel', "<"%char :: rest =>
      let '(name, rest) := take_name rest in
      match name with
      | [] => None
      | _ =>
          match lstrip rest with
          | "/"%char :: ">"%char :: rest' =>
              Some (ET.mk (string_of_list_ascii name) PNone [], rest')
          | ">"%char :: rest' =>
              '(data, rest') ← char_data (List.length rest') rest' [];
              '(kids, rest') ← content (element fuel') name fuel' rest' [];
              Some (ET.mk (string_of_list_ascii name) (text_of data) kids,
                    rest')
          | _ => None
          end
      end
  | _, _ => None
  end.

Definition ET_fromstring (content : string) : option ET.Element :=
  let s := chars content in
  '(root, rest) ← element (S (List.length s)) s;
  match lstrip rest with [] => Some root | _ => None end.

#[export] Instance library : Library :=
  Build_Library json_loads ET_fromstring.

End RefLibrary.
(** ** Well-typed records

    The dataclass annotations ([id: int], [name: str], [room_id: int]) are
    not enforced at run time; these predicates say that a record respects
    them. *)

Definition is_int (v : pyval) : bool :=
  match v with PInt _ => true | _ => false end.

Definition is_str (v : pyval) : bool :=
  match v with PStr _ => true | _ => false end.

Definition well_typed_student (s : Student.t) : bool :=
  is_int (Student.id s) && is_str (Student.name s) && is_int (Student.room_id s).

Definition well_typed_room (r : Room.t) : bool :=
  is_int (Room.id r) && is_str (Room.name r).

(** A value that can be a dict key. *)
Definition hashable (v : pyval) : Prop := ∃ k, py_hash v = Ok k.

(** The students a room refers to. *)
Definition students_of (h : heap) (r : Room.t) : list Student.t :=
  deref h (Room.students r).

Definition well_typed_students (S : list Student.t) : Prop :=
  Forall (λ s, well_typed_student s = true) S.

Definition well_typed_rooms (R : list Room.t) : Prop :=
  Forall (λ r, well_typed_room r = true) R.

(** ** Vocabulary for the combine step *)

(** The students of [S] whose room identifier equals the identifier of
    [r], in the order of [S]. *)
Definition matching (S : list Student.t) (r : Room.t) : list Student.t :=
  filter (λ s, Student.room_id s = Room.id r) S.

(** The students of [S] whose room identifier is the key [k], in the
    order of [S]. *)
Definition group_of (k : hkey) (S : list Student.t) : list Student.t :=
  filter (λ s, py_hash (Student.room_id s) = Ok k) S.

(** What the first loop maintains: having visited [visited], the map
    binds exactly the keys that occurred, each to a list object of its own
    that was allocated by the loop and holds the key's group. *)
Record grouped (h0 : heap) (visited : list Student.t)
    (m : gmap hkey loc) (h : heap) : Prop := {
  grouped_base : take (length h0) h = h0;
  grouped_some : ∀ k l, m !! k = Some l →
    (length h0 ≤ l)%nat ∧ h !! l = Some (group_of k visited)
    ∧ group_of k visited ≠ [];
  grouped_none : ∀ k, m !! k = None → group_of k visited = [];
  grouped_inj : ∀ k1 k2 l, m !! k1 = Some l → m !! k2 = Some l → k1 = k2;
}.

(** The second loop: a room gets the list object its key is bound to, or
    the fresh empty list built for this iteration. *)
Definition assigned (m : gmap hkey loc) (lo hi : nat) (r r' : Room.t) : Prop :=
  Room.id r' = Room.id r ∧ Room.name r' = Room.name r
  ∧ ∃ k, py_hash (Room.id r) = Ok k
         ∧ (m !! k = Some (Room.students r')
            ∨ (m !! k = None ∧ (lo ≤ Room.students r' < hi)%nat)).

(** The shape of the result, shared by the statements below: the rooms
    come back in order with identifier and name unchanged; each refers to
    a live list object holding its matching students; a non-empty group
    is the one list object the map binds to the room's key. *)
Definition attached (S : list Student.t) (m : gmap hkey loc) (h' : heap)
    (r r' : Room.t) : Prop :=
  Room.id r' = Room.id r ∧ Room.name r' = Room.name r
  ∧ h' !! Room.students r' = Some (matching S r)
  ∧ (matching S r ≠ [] →
     ∃ k, py_hash (Room.id r) = Ok k ∧ m !! k = Some (Room.students r')).

(** ** Vocabulary for the loaders *)

(** The file at [path] exists and the XML parser rejects its text. *)
Definition malformed_xml `{Library} (fs : FileSystem) (path : string) : Prop :=
  ∃ content, fs !! path = Some content ∧ ET_fromstring content = None.

(** The message of the error raised for a malformed XML file. *)
Definition xml_error_message (path : string) : string :=
  "Error parsing XML file: " +:+ path.


(** The element has a child [name] whose text is [v]. *)
Definition has_child_text (el : ET.Element) (name : string) (v : pyval) : Prop :=
  ∃ child, ET.find el name = Some child ∧ ET.text child = v.

(** The element has a child [name] whose text is a literal of the
    integer [z]. *)
Definition has_child_int (el : ET.Element) (name : string) (z : Z) : Prop :=
  ∃ lit, has_child_text el name (PStr lit) ∧ int_of_str lit = Some z.

(** The element carries the child text-elements of the student [s]. *)
Definition carries_student (el : ET.Element) (s : Student.t) : Prop :=
  ∃ i r, has_child_int el "id" i ∧ has_child_text el "name" (Student.name s)
         ∧ has_child_int el "room" r
         ∧ Student.id s = PInt i ∧ Student.room_id s = PInt r.

(** The element carries the child text-elements of the room [r]. *)
Definition carries_room (el : ET.Element) (r : Room.t) : Prop :=
  ∃ i, has_child_int el "id" i ∧ has_child_text el "name" (Room.name r)
       ∧ Room.id r = PInt i.

(** The errors of reading one record: a child is missing
    ([AttributeError]), an integer field is empty ([TypeError]) or is not
    an integer literal ([ValueError]). *)
Definition record_error (e : exn) : Prop :=
  e = AttributeError ∨ e = TypeError ∨ ∃ msg, e = ValueError msg.

(** The records a JSON document is read as: the items the loader's
    comprehension visits. *)
Definition records_of (doc : pyval) : list pyval :=
  match py_iter doc with Ok records => records | Err _ => [] end.

(** [record[key]] yields a value. *)
Definition has_field (record : pyval) (key : string) : bool :=
  match py_getitem record key with Ok _ => true | Err _ => false end.

Definition student_complete (record : pyval) : bool :=
  has_field record "id" && has_field record "name" && has_field record "room".

Definition room_complete (record : pyval) : bool :=
  has_field record "id" && has_field record "name".

(** The record has its required fields with the annotated types. *)
Definition student_typed (record : pyval) : bool :=
  match py_getitem record "id", py_getitem record "name",
        py_getitem record "room" with
  | Ok (PInt _), Ok (PStr _), Ok (PInt _) => true
  | _, _, _ => false
  end.

(** The errors of a record without a required field: [KeyError] for an
    object that lacks the key, [TypeError] for a record that is not an
    object. *)
Definition field_error (e : exn) : Prop :=
  e = TypeError ∨ ∃ key, e = KeyError key ∧ key ∈ ["id"; "name"; "room"].

(** The student and the room a complete record is loaded as. *)
Definition student_from (record : pyval) (s : Student.t) : Prop :=
  py_getitem record "id" = Ok (Student.id s)
  ∧ py_getitem record "name" = Ok (Student.name s)
  ∧ py_getitem record "room" = Ok (Student.room_id s).

Definition room_from (record : pyval) (r : Room.t) : Prop :=
  py_getitem record "id" = Ok (Room.id r)
  ∧ py_getitem record "name" = Ok (Room.name r).

(** ** The layout of the JSON output

    The text the specification describes, written line by line: every
    nesting level indents by four spaces. *)

Module Layout.

Definition newline : string := chr 10.

(** [text] at the start of a line, [depth] levels deep. *)
Definition indented (depth : nat) (text : string) : string :=
  json.spaces (4 * depth) +:+ text.

(** An object member: the quoted key, a colon, a space and the value. *)
Definition member (key value : string) : string :=
  json.encode_str key +:+ ": " +:+ value.

(** A bracketed block whose opening bracket stands [depth] levels deep:
    each item starts a line one level deeper, a comma ends every item but
    the last, and the closing bracket has a line of its own; an empty
    block is the two brackets side by side. *)
Definition block (depth : nat) (opening closing : string)
    (items : list string) : string :=
  match items with
  | [] => opening +:+ closing
  | _ =>
      opening +:+ newline
      +:+ String.concat ("," +:+ newline) (map (indented (S depth)) items)
      +:+ newline +:+ indented depth closing
  end.

(** A value of a field, [depth] levels deep. *)
Definition value (depth : nat) (v : pyval) : string := json.encode 4 depth v.

Definition student (depth : nat) (s : Student.t) : string :=
  block depth "{" "}"
    [member "id" (value (S depth) (Student.id s));
     member "name" (value (S depth) (Student.name s));
     member "room_id" (value (S depth) (Student.room_id s))].

Definition room (h : heap) (r : Room.t) : string :=
  block 1 "{" "}"
    [member "id" (value 2 (Room.id r));
     member "name" (value 2 (Room.name r));
     member "students" (block 2 "[" "]" (map (student 3) (students_of h r)))].

Definition document (h : heap) (rooms : list Room.t) : string :=
  block 0 "[" "]" (map (room h) rooms).

End Layout.

(** ** Reading back what was written *)




(** ** The example of the specification *)

Module Example.

Definition Ann := Student.new (PInt 1) (PStr "Ann") (PInt 10).
Definition Bo := Student.new (PInt 2) (PStr "Bo") (PInt 20).
Definition Cy := Student.new (PInt 3) (PStr "Cy") (PInt 10).
Definition students := [Ann; Bo; Cy].

(** The rooms as a loader leaves them: each with an empty list of its
    own. *)
Definition rooms :=
  [Room.new (PInt 10) (PStr "Alpha") 0; Room.new (PInt 20) (PStr "Beta") 1;
   Room.new (PInt 30) (PStr "Gamma") 2]%nat.
Definition store : heap := [[]; []; []].

(** The rooms and the store after the combine step. *)
Definition combined_rooms :=
  [Room.new (PInt 10) (PStr "Alpha") 3; Room.new (PInt 20) (PStr "Beta") 4;
   Room.new (PInt 30) (PStr "Gamma") 7]%nat.
Definition combined_store : heap :=
  [[]; []; []; [Ann; Cy]; [Bo]; []; []; []].


(** The rooms as they are loaded again from these texts. *)
Definition reloaded_rooms :=
  [Room.new (PInt 10) (PStr "Alpha") 0; Room.new (PInt 20) (PStr "Beta") 1;
   Room.new (PInt 30) (PStr "Gamma") 2]%nat.

(** The same rooms, with room 10 listed a second time. *)
Definition rooms_dup :=
  [Room.new (PInt 10) (PStr "Alpha") 0; Room.new (PInt 20) (PStr "Beta") 1;
   Room.new (PInt 10) (PStr "Alpha again") 2]%nat.

(** XML sources: a well-formed students file, a well-formed rooms file,
    and two files that break off in the middle. *)
Definition students_xml : string :=
  "<Students><Student><id>1</id><name>Ann</name><room>10</room></Student>"
  +:+ "<Student><id>2</id><name>Bo</name><room>20</room></Student></Students>".
Definition rooms_xml : string :=
  "<Rooms><Room><id>10</id><name>Alpha</name></Room></Rooms>".
Definition broken_students_xml : string := "<Students><Student><id>1</id>".

(** JSON sources: a students file whose only record has a string where
    the identifier should be, a students file whose record has no [room],
    and an empty array. *)
Definition mistyped_students_json : string :=
  json.dumps
    (PList [PDict [("id", PStr "x"); ("name", PStr "Ann"); ("room", PInt 10)]]) 4.
Definition incomplete_students_json : string :=
  json.dumps (PList [PDict [("id", PInt 1); ("name", PStr "Ann")]]) 4.
Definition empty_json : string := "[]".

Definition files (students rooms : string) : FileSystem :=
  <["students" := students]> {["rooms" := rooms]}.

End Example.
(** ** Vocabulary for the further properties *)

(** An element as the XML parser gives it: every text is a string or
    [None]. *)
Fixpoint plain (e : ET.Element) : bool :=
  match e with
  | ET.mk _ text children =>
      match text with PNone | PStr _ => true | _ => false end
      && forallb plain children
  end.

(** The errors of reading one XML record, with the message of [int()]. *)
Definition literal_error (e : exn) : Prop :=
  e = AttributeError ∨ e = TypeError
  ∨ ∃ s, e = ValueError ("invalid literal for int() with base 10: "
                         +:+ repr_str s).

(** What indexing a JSON record by [keys], in this order, raises first. *)
Definition first_missing (keys : list string) (record : pyval) : option exn :=
  match record with
  | PDict _ => KeyError <$> List.find (λ key, negb (has_field record key)) keys
  | _ => match keys with [] => None | _ => Some TypeError end
  end.

(** A name the XML serializer can write: a string, or a value that counts
    as false and is written as no text at all. *)
Definition writable_name (v : pyval) : bool := is_str v || negb (py_truthy v).

Definition xml_writable (h : heap) (rooms : list Room.t) : Prop :=
  Forall (λ r, writable_name (Room.name r) = true
               ∧ Forall (λ s, writable_name (Student.name s) = true)
                   (students_of h r)) rooms.


(** ** The program as a join of two JSON documents *)


(** Two values are the same dict key. *)
Definition same_key (a b : pyval) : Prop := py_hash a = py_hash b.

Global Instance same_key_dec a b : Decision (same_key a b).
Proof. unfold same_key. apply _. Defined.




(** ** Output in ASCII *)



(** ** The layout of the XML output

    The text for well-typed data: an element is its tag around its body,
    and a single self-closing tag when the body is empty. *)

Module XmlLayout.

Definition element (tag body : string) : string :=
  if String.eqb body "" then "<" +:+ tag +:+ " />"
  else "<" +:+ tag +:+ ">" +:+ body +:+ "</" +:+ tag +:+ ">".

(** [&], [<] and [>] written as entities. *)
Definition escaped (s : string) : string :=
  str_map (λ c, if Ascii.eqb c "&" then "&amp;"
                else if Ascii.eqb c "<" then "&lt;"
                else if Ascii.eqb c ">" then "&gt;"
                else String c "") s.

(** An identifier field: [str()] of the value, escaped; for an integer
    these are its decimal digits. *)
Definition number (v : pyval) : string := escaped (py_str v).

(** A name field: the characters of the string, escaped. *)
Definition name (v : pyval) : string :=
  match v with PStr s => escaped s | _ => "" end.

Definition student (s : Student.t) : string :=
  element "Student"
    (element "id" (number (Student.id s))
     +:+ element "name" (name (Student.name s))
     +:+ element "room" (number (Student.room_id s))).

Definition room (h : heap) (r : Room.t) : string :=
  element "Room"
    (element "id" (number (Room.id r))
     +:+ element "name" (name (Room.name r))
     +:+ element "Students" (String.concat "" (map student (students_of h r)))).

Definition document (h : heap) (rooms : list Room.t) : string :=
  element "Rooms" (String.concat "" (map (room h) rooms)).

End XmlLayout.

(** ** More sample data *)

Module Sample.

(** Identifiers that are not integers: a string, [True] and [1]. *)
Definition students :=
  [Student.new (PInt 1) (PStr "Ann") (PStr "A");
   Student.new (PInt 2) (PStr "Bo") (PBool true);
   Student.new (PInt 3) (PStr "Cy") (PInt 1)].
Definition rooms :=
  [Room.new (PInt 1) (PStr "One") 0; Room.new (PStr "A") (PStr "Annex") 1]%nat.
Definition store : heap := [[]; []].

(** A student whose room is a list. *)
Definition unhashable_students :=
  [Student.new (PInt 1) (PStr "Ann") (PList [PInt 10])].

(** The example with room 10 listed twice, after the combine step. *)
Definition combined_dup :=
  [Room.new (PInt 10) (PStr "Alpha") 3; Room.new (PInt 20) (PStr "Beta") 4;
   Room.new (PInt 10) (PStr "Alpha again") 3]%nat.


(** JSON sources. *)
Definition students_json : string :=
  json.dumps
    (PList [PDict [("id", PInt 1); ("name", PStr "Ann"); ("room", PInt 10)];
            PDict [("id", PInt 2); ("name", PStr "Bo"); ("room", PInt 20)];
            PDict [("id", PInt 3); ("name", PStr "Cy"); ("room", PInt 10)]]) 4.
Definition rooms_json : string :=
  json.dumps
    (PList [PDict [("id", PInt 10); ("name", PStr "Alpha")];
            PDict [("id", PInt 20); ("name", PStr "Beta")];
            PDict [("id", PInt 30); ("name", PStr "Gamma")]]) 4.

(** A students file whose second record has neither [name] nor [room]. *)
Definition second_incomplete_json : string :=
  json.dumps
    (PList [PDict [("id", PInt 1); ("name", PStr "Ann"); ("room", PInt 10)];
            PDict [("id", PInt 2)];
            PDict []]) 4.

(** An XML students file whose second record has a word as [id]. *)
Definition worded_students_xml : string :=
  "<Students><Student><id>1</id><name>Ann</name><room>10</room></Student>"
  +:+ "<Student><id>two</id><name>Bo</name><room>20</room></Student></Students>".


End Sample.
(** * Properties *)

(** ** The combine step: grouping invariant *)

Section combine_facts.
Import RoomDataProcessor.


Lemma group_of_snoc k S s :
  group_of k (S ++ [s]) =
  group_of k S ++ (if decide (py_hash (Student.room_id s) = Ok k) then [s] else []).
Proof.
  unfold group_of. by rewrite filter_app.
Qed.

Lemma grouped_init h0 : grouped h0 [] ∅ h0.
Proof.
  split.
  - by rewrite firstn_all.
  - intros k l Hl. by rewrite lookup_empty in Hl.
  - done.
  - intros k1 k2 l Hl. by rewrite lookup_empty in Hl.
Qed.

Lemma grouped_length h0 visited m h :
  grouped h0 visited m h → (length h0 ≤ length h)%nat.
Proof.
  intros [Hb _ _ _]. rewrite <- Hb at 1. rewrite length_take. lia.
Qed.

Lemma group_student_step h0 visited m h s k :
  grouped h0 visited m h →
  py_hash (Student.room_id s) = Ok k →
  ∃ m' h', group_student m s h = Ok (m', h')
           ∧ grouped h0 (visited ++ [s]) m' h'.
Proof.
  intros Hg Hk. pose proof (grouped_length _ _ _ _ Hg) as Hlen.
  destruct Hg as [Hb Hs Hn Hi].
  unfold group_student, bind, lift, list_append, new_list, ret. rewrite Hk.
  destruct (m !! k) as [l|] eqn:Hm.
  - eexists _, _. split; [reflexivity|].
    destruct (Hs _ _ Hm) as (Hl0 & Hl & Hne). split.
    + by rewrite take_alter_ge.
    + intros k' l' Hm'. destruct (Hs _ _ Hm') as (Hl0' & Hl' & Hne').
      rewrite group_of_snoc. split; [done|].
      destruct (decide (k' = k)) as [->|Hkk].
      * assert (l' = l) as -> by congruence.
        rewrite decide_True by done.
        rewrite list_lookup_alter_eq, Hl. simpl. split; [done|].
        by destruct (group_of k visited).
      * rewrite decide_False by congruence. rewrite app_nil_r.
        rewrite list_lookup_alter_ne; [done|].
        intros ->. apply Hkk. by eapply Hi.
    + intros k' Hm'. rewrite group_of_snoc, (Hn _ Hm').
      case_decide as E; [|done]. rewrite Hk in E. injection E as <-. congruence.
    + done.
  - eexists _, _. split; [reflexivity|]. split.
    + rewrite take_alter_ge by done. by rewrite take_app_le.
    + intros k' l'. rewrite lookup_insert. case_decide as Hkk.
      * intros [= <-]. subst k'. rewrite group_of_snoc, (Hn _ Hm).
        rewrite decide_True by done. split; [done|]. split; [|done].
        rewrite list_lookup_alter_eq, lookup_app_r by done.
        by rewrite Nat.sub_diag.
      * intros Hm'. destruct (Hs _ _ Hm') as (Hl0' & Hl' & Hne').
        rewrite group_of_snoc, decide_False by congruence.
        rewrite app_nil_r. split; [done|]. split; [|done].
        apply lookup_lt_Some in Hl' as Hlt.
        rewrite list_lookup_alter_ne by lia.
        by rewrite lookup_app_l.
    + intros k'. rewrite lookup_insert. case_decide as Hkk; [done|].
      intros Hm'. rewrite group_of_snoc, (Hn _ Hm').
      by rewrite decide_False by congruence.
    + intros k1 k2 l'. rewrite !lookup_insert.
      repeat case_decide; subst; try done.
      * intros [= <-] Hm2. destruct (Hs _ _ Hm2) as (_ & Hl2 & _).
        apply lookup_lt_Some in Hl2. lia.
      * intros Hm1 [= <-]. destruct (Hs _ _ Hm1) as (_ & Hl1 & _).
        apply lookup_lt_Some in Hl1. lia.
      * apply Hi.
Qed.

Lemma group_loop h0 S : ∀ visited m h,
  grouped h0 visited m h →
  Forall (λ s, hashable (Student.room_id s)) S →
  ∃ m' h', for_each S group_student m h = Ok (m', h')
           ∧ grouped h0 (visited ++ S) m' h'.
Proof.
  induction S as [|s S IH]; intros visited m h Hg HS.
  - exists m, h. by rewrite app_nil_r.
  - apply Forall_cons in HS as [[k Hk] HS].
    destruct (group_student_step _ _ _ _ _ _ Hg Hk) as (m1 & h1 & Hstep & Hg1).
    destruct (IH _ _ _ Hg1 HS) as (m' & h' & Hrest & Hg').
    exists m', h'. split.
    + simpl. unfold bind at 1. by rewrite Hstep.
    + by rewrite <- app_assoc in Hg'.
Qed.


Lemma assign_loop m R : ∀ h,
  Forall (λ r, hashable (Room.id r)) R →
  ∃ R', comprehension (assign_students m) R h
          = Ok (R', h ++ replicate (length R) [])
        ∧ Forall2 (assigned m (length h) (length h + length R)) R R'.
Proof.
  induction R as [|r R IH]; intros h HR.
  - exists []. simpl. unfold ret. by rewrite app_nil_r.
  - apply Forall_cons in HR as [[k Hk] HR].
    destruct (IH (h ++ [[]]) HR) as (R' & Hrest & HF).
    eexists (_ :: R'). split.
    + simpl. unfold bind at 1. unfold assign_students at 1.
      unfold bind, new_list, lift, ret. rewrite Hk.
      unfold bind, ret in Hrest. rewrite Hrest.
      by rewrite <- (assoc_L _ h [[]]).
    + constructor.
      * repeat split. exists k. split; [done|]. simpl.
        destruct (m !! k); [by left|right]. simpl. split; [done|lia].
      * eapply Forall2_impl; [exact HF|].
        intros r1 r1' (? & ? & k1 & ? & Hcase). repeat split; try done.
        exists k1. split; [done|].
        destruct Hcase as [?|[? Hb]]; [by left|right]. split; [done|].
        rewrite length_app in Hb. simpl in *. lia.
Qed.

(** The combine step as a whole. *)
Lemma combine_run S R h0 :
  Forall (λ s, hashable (Student.room_id s)) S →
  Forall (λ r, hashable (Room.id r)) R →
  ∃ m h1 R',
    combine S R h0 = Ok (R', h1 ++ replicate (length R) [])
    ∧ grouped h0 S m h1
    ∧ Forall2 (assigned m (length h1) (length h1 + length R)) R R'.
Proof.
  intros HS HR.
  destruct (group_loop h0 S [] ∅ h0 (grouped_init h0) HS) as (m & h1 & Hloop & Hg).
  destruct (assign_loop m R h1 HR) as (R' & Hassign & HF).
  exists m, h1, R'. split; [|done].
  unfold combine, bind. by rewrite Hloop.
Qed.

(** What a room refers to after the combine step. *)
Lemma assigned_contents h0 S m h1 n r r' :
  grouped h0 S m h1 →
  assigned m (length h1) (length h1 + n) r r' →
  ∃ k, py_hash (Room.id r) = Ok k
       ∧ (h1 ++ replicate n []) !! Room.students r' = Some (group_of k S)
       ∧ (length h0 ≤ Room.students r')%nat.
Proof.
  intros Hg (_ & _ & k & Hk & Hcase). exists k. split; [done|].
  pose proof (grouped_length _ _ _ _ Hg) as Hlen.
  destruct Hcase as [Hm|[Hm Hb]].
  - destruct (grouped_some _ _ _ _ Hg _ _ Hm) as (? & Hl & _).
    split; [|done]. rewrite lookup_app_l; [done|].
    by eapply lookup_lt_Some.
  - rewrite (grouped_none _ _ _ _ Hg _ Hm). split; [|lia].
    rewrite lookup_app_r by lia. apply lookup_replicate_2. lia.
Qed.

(** [combine_rooms] is the load followed by the combine step. *)
Lemma combine_rooms_after_load (data_loader : DataLoader) fs
    students_path rooms_path h S R h1 :
  load fs students_path rooms_path h = Ok ((S, R), h1) →
  combine_rooms data_loader fs students_path rooms_path h = combine S R h1.
Proof. intros Hload. unfold combine_rooms, bind. by rewrite Hload. Qed.

Lemma combine_rooms_load_error (data_loader : DataLoader) fs
    students_path rooms_path h e :
  load fs students_path rooms_path h = Err e →
  combine_rooms data_loader fs students_path rooms_path h = Err e.
Proof. intros Hload. unfold combine_rooms, bind. by rewrite Hload. Qed.

End combine_facts.

(** ** The combine step on well-typed input *)

Section combine_claims.
Import RoomDataProcessor.


Lemma well_typed_student_hashable s :
  well_typed_student s = true → hashable (Student.room_id s).
Proof.
  unfold well_typed_student, hashable. destruct (Student.room_id s); simpl;
    rewrite ?andb_false_r; try discriminate. eauto.
Qed.

Lemma well_typed_room_hashable r :
  well_typed_room r = true → hashable (Room.id r).
Proof.
  unfold well_typed_room, hashable. destruct (Room.id r); simpl;
    try discriminate. eauto.
Qed.

Lemma group_of_matching S r k :
  well_typed_students S → well_typed_room r = true →
  py_hash (Room.id r) = Ok k → group_of k S = matching S r.
Proof.
  unfold well_typed_room, group_of, matching. intros HS Hr Hk.
  destruct (Room.id r) as [| | z | | |]; try discriminate.
  injection Hk as <-. clear Hr.
  induction HS as [|s S Hs _ IH]; [done|].
  rewrite !filter_cons, IH. unfold well_typed_student in Hs.
  destruct (Student.room_id s) as [| | a | | |]; simpl in Hs;
    rewrite ?andb_false_r in Hs; try discriminate.
  simpl. repeat case_decide; congruence.
Qed.


Lemma Forall2_impl_Forall {A B} (W : A → Prop) (P Q : A → B → Prop) l k :
  Forall W l → Forall2 P l k → (∀ x y, W x → P x y → Q x y) → Forall2 Q l k.
Proof.
  intros HW HP HPQ. induction HP as [|x y l k Hxy _ IH]; [constructor|].
  apply Forall_cons in HW as [Hx HW]. constructor; auto.
Qed.

Lemma combine_typed S R h0 :
  well_typed_students S → well_typed_rooms R →
  ∃ m R' h', combine S R h0 = Ok (R', h')
             ∧ Forall2 (attached S m h') R R'.
Proof.
  intros HS HR.
  destruct (combine_run S R h0) as (m & h1 & R' & Hrun & Hg & HF).
  { eapply Forall_impl; [exact HS|]. apply well_typed_student_hashable. }
  { eapply Forall_impl; [exact HR|]. apply well_typed_room_hashable. }
  exists m, R', (h1 ++ replicate (length R) []). split; [done|].
  eapply Forall2_impl_Forall; [exact HR|exact HF|].
  intros r r' Hr Hrr'.
  destruct (assigned_contents _ _ _ _ _ _ _ Hg Hrr') as (k & Hk & Hl & _).
  destruct Hrr' as (Hid & Hname & k' & Hk' & Hcase).
  rewrite (group_of_matching S r k HS Hr Hk) in Hl.
  repeat split; try done.
  intros Hne. exists k'. split; [done|].
  destruct Hcase as [?|[Hnone _]]; [done|].
  assert (k' = k) as -> by congruence.
  apply (grouped_none _ _ _ _ Hg) in Hnone.
  by rewrite (group_of_matching S r k HS Hr Hk) in Hnone.
Qed.

End combine_claims.

(** ** Claims about the combine step *)

(** C1.  For well-typed students [S] and rooms [R] the combine step returns
    the rooms of [R] in order, identifier and name unchanged, and the list
    each room refers to holds exactly the students of [S] whose room
    identifier equals the room's identifier, in the order they have in
    [S]. *)
Theorem combine_attaches_matching_students (S : list Student.t)
    (R : list Room.t) (h0 : heap) :
  well_typed_students S → well_typed_rooms R →
  ∃ R' h',
    RoomDataProcessor.combine S R h0 = Ok (R', h')
    ∧ Forall2 (λ r r',
        Room.id r' = Room.id r ∧ Room.name r' = Room.name r
        ∧ h' !! Room.students r' = Some (matching S r)
        ∧ matching S r `sublist_of` S
        ∧ ∀ s, s ∈ matching S r ↔ s ∈ S ∧ Student.room_id s = Room.id r)
        R R'.
Proof.
  intros HS HR.
  destruct (combine_typed S R h0 HS HR) as (m & R' & h' & Hrun & HF).
  exists R', h'. split; [done|].
  eapply Forall2_impl; [exact HF|].
  intros r r' (Hid & Hname & Hl & _).
  split; [done|]. split; [done|]. split; [done|]. split.
  - apply sublist_filter.
  - intros s. unfold matching. rewrite list_elem_of_filter. tauto.
Qed.

Lemma combine_attaches_matching_students_witness :
  ∃ R' h',
    RoomDataProcessor.combine Example.students Example.rooms Example.store
      = Ok (R', h')
    ∧ Forall2 (λ r r',
        Room.id r' = Room.id r ∧ Room.name r' = Room.name r
        ∧ h' !! Room.students r' = Some (matching Example.students r)
        ∧ matching Example.students r `sublist_of` Example.students
        ∧ ∀ s, s ∈ matching Example.students r
               ↔ s ∈ Example.students ∧ Student.room_id s = Room.id r)
        Example.rooms R'.
Proof.
  apply (combine_attaches_matching_students
           Example.students Example.rooms Example.store);
    repeat constructor.
Defined.

Lemma matching_nil S r :
  (∀ s, s ∈ S → Student.room_id s ≠ Room.id r) → matching S r = [].
Proof.
  intros Hno. destruct (matching S r) as [|s l] eqn:E; [done|].
  assert (s ∈ matching S r) as Hs by (rewrite E; left).
  apply list_elem_of_filter in Hs as [Heq Hin]. by destruct (Hno s Hin).
Qed.

(** C2.  A room of [R] whose identifier matches no student's room
    identifier is present in the result, at its position and with its
    identifier and name, and refers to a list object that exists and is
    empty. *)
Theorem combine_keeps_unmatched_rooms (S : list Student.t) (R : list Room.t)
    (h0 : heap) :
  well_typed_students S → well_typed_rooms R →
  ∃ R' h',
    RoomDataProcessor.combine S R h0 = Ok (R', h')
    ∧ length R' = length R
    ∧ ∀ i r, R !! i = Some r →
        (∀ s, s ∈ S → Student.room_id s ≠ Room.id r) →
        ∃ r', R' !! i = Some r'
              ∧ Room.id r' = Room.id r ∧ Room.name r' = Room.name r
              ∧ h' !! Room.students r' = Some [].
Proof.
  intros HS HR.
  destruct (combine_typed S R h0 HS HR) as (m & R' & h' & Hrun & HF).
  exists R', h'. split; [done|]. split.
  - symmetry. by eapply Forall2_length.
  - intros i r Hi Hno.
    destruct (Forall2_lookup_l _ _ _ _ _ HF Hi) as (r' & Hi' & Hid & Hname & Hl & _).
    exists r'. rewrite (matching_nil S r Hno) in Hl. done.
Qed.

Lemma combine_keeps_unmatched_rooms_witness :
  ∃ R' h',
    RoomDataProcessor.combine Example.students Example.rooms Example.store
      = Ok (R', h')
    ∧ length R' = length Example.rooms
    ∧ ∀ i r, Example.rooms !! i = Some r →
        (∀ s, s ∈ Example.students → Student.room_id s ≠ Room.id r) →
        ∃ r', R' !! i = Some r'
              ∧ Room.id r' = Room.id r ∧ Room.name r' = Room.name r
              ∧ h' !! Room.students r' = Some [].
Proof.
  apply (combine_keeps_unmatched_rooms
           Example.students Example.rooms Example.store);
    repeat constructor.
Defined.

(** C3.  On well-typed input the combine step returns normally, and a
    student whose room identifier equals no room's identifier is in no
    room's list. *)
Theorem combine_succeeds_and_drops_unmatched (S : list Student.t)
    (R : list Room.t) (h0 : heap) :
  well_typed_students S → well_typed_rooms R →
  ∃ R' h',
    RoomDataProcessor.combine S R h0 = Ok (R', h')
    ∧ ∀ s, s ∈ S → (∀ r, r ∈ R → Room.id r ≠ Student.room_id s) →
        ∀ r', r' ∈ R' → s ∉ students_of h' r'.
Proof.
  intros HS HR.
  destruct (combine_typed S R h0 HS HR) as (m & R' & h' & Hrun & HF).
  exists R', h'. split; [done|].
  intros s Hs Hno r' Hr' Hin.
  apply list_elem_of_lookup in Hr' as [i Hi'].
  destruct (Forall2_lookup_r _ _ _ _ _ HF Hi') as (r & Hi & _ & _ & Hl & _).
  unfold students_of, deref in Hin. rewrite Hl in Hin. simpl in Hin.
  apply list_elem_of_filter in Hin as [Heq _].
  apply (Hno r); [|done]. apply list_elem_of_lookup. eauto.
Qed.

Lemma combine_succeeds_and_drops_unmatched_witness :
  ∃ R' h',
    RoomDataProcessor.combine Example.students (take 1 Example.rooms)
      Example.store = Ok (R', h')
    ∧ ∀ s, s ∈ Example.students →
        (∀ r, r ∈ take 1 Example.rooms → Room.id r ≠ Student.room_id s) →
        ∀ r', r' ∈ R' → s ∉ students_of h' r'.
Proof.
  apply (combine_succeeds_and_drops_unmatched
           Example.students (take 1 Example.rooms) Example.store);
    repeat constructor.
Defined.

(** C9.  When two rooms of [R] have the same identifier the combine step
    still returns normally, and both rooms get the whole group of that
    identifier: each refers to a list holding every matching student, in
    order.  A non-empty group is one list object that both rooms refer
    to. *)
Theorem combine_duplicate_rooms_share_group (S : list Student.t)
    (R : list Room.t) (h0 : heap) (i j : nat) (ri rj : Room.t) :
  well_typed_students S → well_typed_rooms R →
  i ≠ j → R !! i = Some ri → R !! j = Some rj → Room.id ri = Room.id rj →
  ∃ R' h' ri' rj',
    RoomDataProcessor.combine S R h0 = Ok (R', h')
    ∧ R' !! i = Some ri' ∧ R' !! j = Some rj'
    ∧ h' !! Room.students ri' = Some (matching S ri)
    ∧ h' !! Room.students rj' = Some (matching S ri)
    ∧ (matching S ri ≠ [] → Room.students ri' = Room.students rj').
Proof.
  intros HS HR Hij Hi Hj Hid.
  destruct (combine_typed S R h0 HS HR) as (m & R' & h' & Hrun & HF).
  destruct (Forall2_lookup_l _ _ _ _ _ HF Hi) as (ri' & Hi' & _ & _ & Hli & Hsi).
  destruct (Forall2_lookup_l _ _ _ _ _ HF Hj) as (rj' & Hj' & _ & _ & Hlj & Hsj).
  assert (matching S rj = matching S ri) as Hsame
    by (unfold matching; by rewrite Hid).
  rewrite Hsame in Hlj, Hsj.
  exists R', h', ri', rj'. repeat (split; [done|]).
  intros Hne.
  destruct (Hsi Hne) as (k & Hk & Hmi). destruct (Hsj Hne) as (k' & Hk' & Hmj).
  rewrite Hid in Hk. congruence.
Qed.

Lemma combine_duplicate_rooms_share_group_witness :
  ∃ R' h' ri' rj',
    RoomDataProcessor.combine Example.students Example.rooms_dup Example.store
      = Ok (R', h')
    ∧ R' !! 0%nat = Some ri' ∧ R' !! 2%nat = Some rj'
    ∧ h' !! Room.students ri' = Some [Example.Ann; Example.Cy]
    ∧ h' !! Room.students rj' = Some [Example.Ann; Example.Cy]
    ∧ ([Example.Ann; Example.Cy] ≠ [] → Room.students ri' = Room.students rj').
Proof.
  apply (combine_duplicate_rooms_share_group
           Example.students Example.rooms_dup Example.store 0 2
           (Room.new (PInt 10) (PStr "Alpha") 0)
           (Room.new (PInt 10) (PStr "Alpha again") 2));
    try reflexivity; try lia; repeat constructor.
Defined.

(** ** The XML loader *)

Section xml_loader_facts.
Context `{Library}.

Lemma ET_parse_malformed fs path :
  malformed_xml fs path → ET_parse fs path = Err ParseError.
Proof. intros (content & Hfs & Hbad). unfold ET_parse. by rewrite Hfs, Hbad. Qed.

Lemma parse_students_malformed fs path h :
  malformed_xml fs path →
  XmlDataLoader.parse_students fs path h
  = Err (ValueError (xml_error_message path)).
Proof.
  intros Hbad. unfold XmlDataLoader.parse_students, except_ParseError_raise.
  unfold bind, lift. by rewrite (ET_parse_malformed _ _ Hbad).
Qed.

Lemma parse_rooms_malformed fs path h :
  malformed_xml fs path →
  XmlDataLoader.parse_rooms fs path h
  = Err (ValueError (xml_error_message path)).
Proof.
  intros Hbad. unfold XmlDataLoader.parse_rooms, except_ParseError_raise.
  unfold bind, lift. by rewrite (ET_parse_malformed _ _ Hbad).
Qed.

End xml_loader_facts.



Section xml_records.
Context `{Library}.



(** An error of a comprehension is an error of one of its items. *)
Lemma comprehension_error {A B} (f : A → M B) (P : exn → Prop) l :
  (∀ x h e, f x h = Err e → P e) →
  ∀ h e, comprehension f l h = Err e → P e.
Proof.
  intros Hf. induction l as [|x l IH]; intros h e; [done|].
  simpl. unfold bind. destruct (f x h) as [[b h1]|e1] eqn:Hx.
  - destruct (comprehension f l h1) as [[bs h2]|e2] eqn:Hl; [done|].
    intros [= <-]. by eapply IH.
  - intros [= <-]. by eapply Hf.
Qed.

Lemma find_int_error el name e :
  rbind (XmlDataLoader.find_text el name) py_int = Err e → record_error e.
Proof.
  unfold XmlDataLoader.find_text, record_error.
  destruct (ET.find el name) as [child|]; simpl; [|intros [= <-]; by left].
  destruct (ET.text child) as [| | | s | |]; simpl; try discriminate;
    try (intros [= <-]; right; by left).
  destruct (int_of_str s); [discriminate|]. intros [= <-]. right. right. eauto.
Qed.

Lemma find_text_error el name e :
  XmlDataLoader.find_text el name = Err e → record_error e.
Proof.
  unfold XmlDataLoader.find_text.
  destruct (ET.find el name); [discriminate|]. intros [= <-]. by left.
Qed.

Lemma student_of_error el h e :
  XmlDataLoader.student_of el h = Err e → record_error e.
Proof.
  unfold XmlDataLoader.student_of, bind, lift, ret.
  destruct (rbind (XmlDataLoader.find_text el "id") py_int) eqn:E1;
    [|intros [= <-]; by eapply find_int_error].
  destruct (XmlDataLoader.find_text el "name") eqn:E2;
    [|intros [= <-]; by eapply find_text_error].
  destruct (rbind (XmlDataLoader.find_text el "room") py_int) eqn:E3;
    [discriminate|intros [= <-]; by eapply find_int_error].
Qed.

Lemma room_of_error el h e :
  XmlDataLoader.room_of el h = Err e → record_error e.
Proof.
  unfold XmlDataLoader.room_of, Room_init, bind, lift, new_list, ret.
  destruct (rbind (XmlDataLoader.find_text el "id") py_int) eqn:E1;
    [|intros [= <-]; by eapply find_int_error].
  destruct (XmlDataLoader.find_text el "name") eqn:E2;
    [discriminate|intros [= <-]; by eapply find_text_error].
Qed.

(** The handler of [ET.ParseError] only sees the errors of [ET.parse]. *)
Lemma except_ParseError_records {A B} (f : A → M B) l e h :
  (∀ x h e, f x h = Err e → record_error e) →
  except_ParseError_raise (comprehension f l) e h = comprehension f l h.
Proof.
  intros Hf. unfold except_ParseError_raise.
  destruct (comprehension f l h) as [r|x] eqn:E; [done|].
  apply (comprehension_error f record_error l Hf) in E.
  destruct E as [->|[->|[msg ->]]]; done.
Qed.

Lemma parse_students_root fs path root h :
  ET_parse fs path = Ok root →
  XmlDataLoader.parse_students fs path h
  = comprehension XmlDataLoader.student_of (ET.children root) h.
Proof.
  intros Hroot. rewrite <- (except_ParseError_records _ _
    (ValueError (xml_error_message path)) h student_of_error).
  unfold XmlDataLoader.parse_students, except_ParseError_raise, bind, lift.
  by rewrite Hroot.
Qed.

Lemma parse_rooms_root fs path root h :
  ET_parse fs path = Ok root →
  XmlDataLoader.parse_rooms fs path h
  = comprehension XmlDataLoader.room_of (ET.children root) h.
Proof.
  intros Hroot. rewrite <- (except_ParseError_records _ _
    (ValueError (xml_error_message path)) h room_of_error).
  unfold XmlDataLoader.parse_rooms, except_ParseError_raise, bind, lift.
  by rewrite Hroot.
Qed.









End xml_records.




(** ** The JSON loader *)

Section json_loader_facts.
Context `{Library}.

Lemma py_getitem_error v key e :
  py_getitem v key = Err e → e = TypeError ∨ e = KeyError key.
Proof.
  destruct v as [| | | | |entries]; simpl; try (intros [= <-]; by left).
  destruct (dict_get entries key); [discriminate|]. intros [= <-]. by right.
Qed.

Lemma py_getitem_field_error v key e :
  key ∈ ["id"; "name"; "room"] → py_getitem v key = Err e → field_error e.
Proof.
  intros Hkey He. destruct (py_getitem_error _ _ _ He) as [->| ->].
  - by left.
  - right. eauto.
Qed.

Ltac field_key := repeat (first [left; fail | apply list_elem_of_here
                                | apply list_elem_of_further]).

Lemma json_student_of_error record h e :
  JsonDataLoader.student_of record h = Err e → field_error e.
Proof.
  unfold JsonDataLoader.student_of, bind, lift, ret.
  destruct (py_getitem record "id") eqn:E1;
    [|intros [= <-]; eapply py_getitem_field_error; [|exact E1]; field_key].
  destruct (py_getitem record "name") eqn:E2;
    [|intros [= <-]; eapply py_getitem_field_error; [|exact E2]; field_key].
  destruct (py_getitem record "room") eqn:E3;
    [discriminate|intros [= <-]; eapply py_getitem_field_error; [|exact E3];
                  field_key].
Qed.

Lemma json_room_of_error record h e :
  JsonDataLoader.room_of record h = Err e → field_error e.
Proof.
  unfold JsonDataLoader.room_of, Room_init, bind, lift, new_list, ret.
  destruct (py_getitem record "id") eqn:E1;
    [|intros [= <-]; eapply py_getitem_field_error; [|exact E1]; field_key].
  destruct (py_getitem record "name") eqn:E2;
    [discriminate|intros [= <-]; eapply py_getitem_field_error; [|exact E2];
                  field_key].
Qed.

Lemma json_student_of_complete record h :
  student_complete record = true →
  ∃ s, JsonDataLoader.student_of record h = Ok (s, h) ∧ student_from record s.
Proof.
  unfold student_complete, has_field, student_from,
    JsonDataLoader.student_of, bind, lift, ret.
  destruct (py_getitem record "id") as [v1|]; [|done].
  destruct (py_getitem record "name") as [v2|]; [|done].
  destruct (py_getitem record "room") as [v3|]; [|done].
  intros _. by exists (Student.new v1 v2 v3).
Qed.

Lemma json_student_of_incomplete record h :
  student_complete record = false →
  ∃ e, JsonDataLoader.student_of record h = Err e.
Proof.
  unfold student_complete, has_field, JsonDataLoader.student_of, bind, lift, ret.
  destruct (py_getitem record "id") as [v1|]; [|eauto].
  destruct (py_getitem record "name") as [v2|]; [|eauto].
  destruct (py_getitem record "room") as [v3|]; [done|eauto].
Qed.

Lemma json_room_of_complete record h :
  room_complete record = true →
  ∃ r, JsonDataLoader.room_of record h = Ok (r, h ++ [[]])
       ∧ room_from record r ∧ Room.students r = length h.
Proof.
  unfold room_complete, has_field, room_from,
    JsonDataLoader.room_of, Room_init, bind, lift, new_list, ret.
  destruct (py_getitem record "id") as [v1|]; [|done].
  destruct (py_getitem record "name") as [v2|]; [|done].
  intros _. by exists (Room.new v1 v2 (length h)).
Qed.

Lemma json_room_of_incomplete record h :
  room_complete record = false →
  ∃ e, JsonDataLoader.room_of record h = Err e.
Proof.
  unfold room_complete, has_field, JsonDataLoader.room_of, Room_init,
    bind, lift, ret.
  destruct (py_getitem record "id") as [v1|]; [|eauto].
  destruct (py_getitem record "name") as [v2|]; [done|eauto].
Qed.

(** A comprehension fails when one of its items does. *)
Lemma comprehension_fails {A B} (f : A → M B) l :
  Exists (λ x, ∀ h, ∃ e, f x h = Err e) l →
  ∀ h, ∃ e, comprehension f l h = Err e.
Proof.
  induction 1 as [x l Hx|x l _ IH]; intros h; simpl; unfold bind.
  - destruct (Hx h) as [e ->]. eauto.
  - destruct (f x h) as [[b h1]|e]; [|eauto].
    destruct (IH h1) as [e ->]. eauto.
Qed.

Lemma json_students_complete records h :
  Forall (λ r, student_complete r = true) records →
  ∃ S, comprehension JsonDataLoader.student_of records h = Ok (S, h)
       ∧ Forall2 student_from records S.
Proof.
  induction 1 as [|record records Hr _ (S & HS & HF)].
  - by exists [].
  - destruct (json_student_of_complete record h Hr) as (s & Hs & Hfrom).
    exists (s :: S). split; [|by constructor].
    simpl. unfold bind. by rewrite Hs, HS.
Qed.

Lemma json_rooms_complete records : ∀ h,
  Forall (λ r, room_complete r = true) records →
  ∃ R, comprehension JsonDataLoader.room_of records h
       = Ok (R, h ++ replicate (length records) [])
       ∧ Forall2 room_from records R
       ∧ Room.students <$> R = seq (length h) (length records).
Proof.
  induction records as [|record records IH]; intros h HF.
  - exists []. simpl. unfold ret. by rewrite app_nil_r.
  - apply Forall_cons in HF as [Hr HF].
    destruct (json_room_of_complete record h Hr) as (r & Hroom & Hfrom & Hloc).
    destruct (IH (h ++ [[]]) HF) as (R & HR & HF2 & Hlocs).
    exists (r :: R). split; [|split].
    + simpl. unfold bind. rewrite Hroom, HR. unfold ret.
      by rewrite <- app_assoc.
    + by constructor.
    + rewrite fmap_cons, Hloc, Hlocs, length_app. simpl. by rewrite Nat.add_1_r.
Qed.

Lemma py_iter_error doc e : py_iter doc = Err e → e = TypeError.
Proof. destruct doc; simpl; congruence. Qed.

End json_loader_facts.

(** C4, as far as it holds.  When both sources are valid JSON and a student
    record lacks [id], [name] or [room], or a room record lacks [id] or
    [name], the load fails: with a [KeyError] naming a required field when
    the record is an object, with a [TypeError] when it is not.  The types
    of the field values are not checked: when both documents can be
    iterated and every record has its required fields, the load succeeds
    and the records hold the values as they are. *)
Theorem json_loader_rejects_missing_fields `{Library} (fs : FileSystem)
    (students_path rooms_path : string) (h : heap) (sdoc rdoc : pyval) :
  load_json fs students_path = Ok sdoc →
  load_json fs rooms_path = Ok rdoc →
  (Exists (λ r, student_complete r = false) (records_of sdoc)
   ∨ Exists (λ r, room_complete r = false) (records_of rdoc) →
   ∃ e, JsonDataLoader.load fs students_path rooms_path h = Err e
        ∧ field_error e)
  ∧ (∀ srecs rrecs,
       py_iter sdoc = Ok srecs → py_iter rdoc = Ok rrecs →
       Forall (λ r, student_complete r = true) srecs →
       Forall (λ r, room_complete r = true) rrecs →
       ∃ S R,
         JsonDataLoader.load fs students_path rooms_path h
           = Ok ((S, R), h ++ replicate (length rrecs) [])
         ∧ Forall2 student_from srecs S ∧ Forall2 room_from rrecs R).
Proof.
  intros Hs Hr. unfold JsonDataLoader.load, bind, lift. rewrite Hs, Hr. split.
  - intros Hbad. unfold records_of in Hbad.
    destruct (py_iter sdoc) as [srecs|e] eqn:Es;
      [|exists e; split; [done|left; by eapply py_iter_error]].
    destruct (comprehension JsonDataLoader.student_of srecs h)
      as [[S h1]|e] eqn:ES.
    2:{ exists e. split; [done|].
        eapply (comprehension_error JsonDataLoader.student_of field_error);
          [|exact ES]. intros x h2 e2. apply json_student_of_error. }
    destruct Hbad as [Hbad|Hbad].
    { exfalso.
      destruct (comprehension_fails JsonDataLoader.student_of srecs) with (h := h)
        as [e He]; [|congruence].
      eapply Exists_impl; [exact Hbad|]. intros x Hx h2.
      by apply json_student_of_incomplete. }
    destruct (py_iter rdoc) as [rrecs|e] eqn:Er;
      [|exists e; split; [done|left; by eapply py_iter_error]].
    destruct (comprehension_fails JsonDataLoader.room_of rrecs) with (h := h1)
      as [e He].
    { eapply Exists_impl; [exact Hbad|]. intros x Hx h2.
      by apply json_room_of_incomplete. }
    rewrite He. exists e. split; [done|].
    eapply (comprehension_error JsonDataLoader.room_of field_error);
      [|exact He]. intros x h2 e2. apply json_room_of_error.
  - intros srecs rrecs Es Er HS HR. rewrite Es.
    destruct (json_students_complete srecs h HS) as (S & -> & HFS).
    rewrite Er.
    destruct (json_rooms_complete rrecs h HR) as (R & -> & HFR & _).
    by exists S, R.
Qed.

(** The claim fails where it speaks of types: a students file whose record
    has a string as [id] is loaded without error. *)
Lemma json_loader_accepts_mistyped_field :
  let fs := Example.files Example.mistyped_students_json Example.empty_json in
  (∃ doc, load_json (H:=RefLibrary.library) fs "students" = Ok doc
          ∧ Exists (λ r, student_typed r = false) (records_of doc))
  ∧ JsonDataLoader.load (H:=RefLibrary.library) fs "students" "rooms" []
    = Ok (([Student.new (PStr "x") (PStr "Ann") (PInt 10)], []), []).
Proof.
  split; [|vm_compute; reflexivity].
  eexists. split; [vm_compute; reflexivity|]. by constructor.
Qed.

Lemma json_loader_rejects_missing_fields_witness :
  (∃ e, JsonDataLoader.load (H:=RefLibrary.library)
          (Example.files Example.incomplete_students_json Example.empty_json)
          "students" "rooms" [] = Err e
        ∧ field_error e)
  ∧ (∃ S R, JsonDataLoader.load (H:=RefLibrary.library)
              (Example.files Example.mistyped_students_json Example.empty_json)
              "students" "rooms" [] = Ok ((S, R), [])
            ∧ Forall2 student_from
                [PDict [("id", PStr "x"); ("name", PStr "Ann"); ("room", PInt 10)]]
                S
            ∧ Forall2 room_from [] R).
Proof.
  split.
  - eapply (json_loader_rejects_missing_fields (H:=RefLibrary.library)
              (Example.files Example.incomplete_students_json Example.empty_json)
              "students" "rooms" []).
    + vm_compute. reflexivity.
    + vm_compute. reflexivity.
    + left. by constructor.
  - assert (load_json (H:=RefLibrary.library)
              (Example.files Example.mistyped_students_json Example.empty_json)
              "students"
            = Ok (PList [PDict [("id", PStr "x"); ("name", PStr "Ann");
                                ("room", PInt 10)]])) as Hs
      by (vm_compute; reflexivity).
    assert (load_json (H:=RefLibrary.library)
              (Example.files Example.mistyped_students_json Example.empty_json)
              "rooms" = Ok (PList [])) as Hr
      by (vm_compute; reflexivity).
    apply (proj2 (json_loader_rejects_missing_fields (H:=RefLibrary.library)
                    _ "students" "rooms" [] _ _ Hs Hr) _ [] eq_refl eq_refl).
    + by repeat constructor.
    + constructor.
Defined.

(** ** The JSON serializer *)

Section string_facts.

Lemma append_cons c s t : String c s +:+ t = String c (s +:+ t).
Proof. reflexivity. Qed.

Lemma append_nil_r s : s +:+ "" = s.
Proof. induction s as [|c s IH]; [done|]. by rewrite append_cons, IH. Qed.

Lemma append_assoc s t u : (s +:+ t) +:+ u = s +:+ t +:+ u.
Proof. induction s as [|c s IH]; [done|]. by rewrite !append_cons, IH. Qed.


End string_facts.

Section json_layout.






End json_layout.


(** ** The XML serializer *)

Section xml_serializer_facts.







End xml_serializer_facts.



(** ** [int(str(z))] is [z] *)

Section int_str.













End int_str.

(** ** Serializing and loading again *)

Section roundtrip_facts.
Context `{Library}.



Lemma fresh_lists_empty (h : heap) n (R : list Room.t) :
  Room.students <$> R = seq (length h) n →
  Forall (λ r', (h ++ replicate n []) !! Room.students r' = Some []) R.
Proof.
  intros Hlocs. apply Forall_forall. intros r' Hr'.
  assert (Room.students r' ∈ seq (length h) n) as Hin.
  { rewrite <- Hlocs. apply list_elem_of_fmap. eauto. }
  apply elem_of_seq in Hin.
  rewrite lookup_app_r by lia. apply lookup_replicate_2. lia.
Qed.








End roundtrip_facts.




(** * Further properties *)

(** ** The combine step on arbitrary values *)

Section combine_extra.
Import RoomDataProcessor.

Lemma py_hash_error v e : py_hash v = Err e → e = TypeError.
Proof. destruct v; simpl; congruence. Qed.

Lemma hashable_or_not v : hashable v ∨ py_hash v = Err TypeError.
Proof. unfold hashable. destruct v; simpl; eauto. Qed.

Lemma not_Forall_hashable {A} (key : A → pyval) l :
  ¬ Forall (λ x, hashable (key x)) l →
  Exists (λ x, py_hash (key x) = Err TypeError) l.
Proof.
  induction l as [|x l IH]; intros Hnot; [by destruct Hnot|].
  destruct (hashable_or_not (key x)) as [Hx|Hx]; [|by left].
  right. apply IH. intros Hl. apply Hnot. by constructor.
Qed.

Lemma group_student_unhashable m s h :
  py_hash (Student.room_id s) = Err TypeError →
  group_student m s h = Err TypeError.
Proof. intros Hs. unfold group_student, bind, lift. by rewrite Hs. Qed.

Lemma group_student_result m s h :
  (∃ m' h', group_student m s h = Ok (m', h'))
  ∨ group_student m s h = Err TypeError.
Proof.
  destruct (hashable_or_not (Student.room_id s)) as [[k Hk]|Hs];
    [left|right; by apply group_student_unhashable].
  unfold group_student, bind, lift, list_append, new_list, ret. rewrite Hk.
  destruct (m !! k); eauto.
Qed.

Lemma group_loop_unhashable S : ∀ m h,
  Exists (λ s, py_hash (Student.room_id s) = Err TypeError) S →
  for_each S group_student m h = Err TypeError.
Proof.
  induction S as [|s S IH]; intros m h HS; [by apply Exists_nil in HS|].
  simpl. unfold bind. apply Exists_cons in HS as [Hs|HS].
  - by rewrite (group_student_unhashable m s h Hs).
  - destruct (group_student_result m s h) as [(m' & h' & ->)| ->]; [|done].
    by apply IH.
Qed.

Lemma assign_students_unhashable m r h :
  py_hash (Room.id r) = Err TypeError →
  assign_students m r h = Err TypeError.
Proof.
  intros Hr. unfold assign_students, bind, lift, new_list. by rewrite Hr.
Qed.

Lemma assign_students_result m r h :
  (∃ r', assign_students m r h = Ok (r', h ++ [[]]))
  ∨ assign_students m r h = Err TypeError.
Proof.
  destruct (hashable_or_not (Room.id r)) as [[k Hk]|Hr];
    [left|right; by apply assign_students_unhashable].
  unfold assign_students, bind, lift, new_list, ret. rewrite Hk. eauto.
Qed.

Lemma assign_loop_unhashable m R : ∀ h,
  Exists (λ r, py_hash (Room.id r) = Err TypeError) R →
  comprehension (assign_students m) R h = Err TypeError.
Proof.
  induction R as [|r R IH]; intros h HR; [by apply Exists_nil in HR|].
  simpl. unfold bind. apply Exists_cons in HR as [Hr|HR].
  - by rewrite (assign_students_unhashable m r h Hr).
  - destruct (assign_students_result m r h) as [[r' ->]| ->]; [|done].
    by rewrite IH.
Qed.

Lemma hashable_all_or_not {A} (key : A → pyval) l :
  Forall (λ x, hashable (key x)) l
  ∨ Exists (λ x, py_hash (key x) = Err TypeError) l.
Proof.
  induction l as [|x l [IH|IH]]; [by left| |right; by right].
  destruct (hashable_or_not (key x)) as [Hx|Hx]; [left; by constructor|].
  right. by left.
Qed.

Lemma Exists_unhashable {A} (key : A → pyval) l :
  Exists (λ x, py_hash (key x) = Err TypeError) l →
  ¬ Forall (λ x, hashable (key x)) l.
Proof.
  intros HE HF. apply Exists_exists in HE as (x & Hx & Herr).
  rewrite Forall_forall in HF. destruct (HF x Hx) as [k Hk]. congruence.
Qed.

(** The three ways the combine step can go. *)
Lemma combine_cases S R h0 :
  (Exists (λ s, py_hash (Student.room_id s) = Err TypeError) S
   ∧ combine S R h0 = Err TypeError)
  ∨ (Forall (λ s, hashable (Student.room_id s)) S
     ∧ Exists (λ r, py_hash (Room.id r) = Err TypeError) R
     ∧ combine S R h0 = Err TypeError)
  ∨ (Forall (λ s, hashable (Student.room_id s)) S
     ∧ Forall (λ r, hashable (Room.id r)) R
     ∧ ∃ R' h', combine S R h0 = Ok (R', h')).
Proof.
  destruct (hashable_all_or_not Student.room_id S) as [HS|HS].
  2:{ left. split; [done|]. unfold combine, bind.
      by rewrite (group_loop_unhashable S ∅ h0 HS). }
  right. destruct (hashable_all_or_not Room.id R) as [HR|HR].
  - right. destruct (combine_run S R h0 HS HR) as (m & h1 & R' & Hrun & _).
    eauto 6.
  - left. split; [done|]. split; [done|]. unfold combine, bind.
    destruct (group_loop h0 S [] ∅ h0 (grouped_init h0) HS) as (m & h1 & -> & _).
    by apply assign_loop_unhashable.
Qed.

(** The second loop, with the list object of every room: the one its key
    is bound to, or else the list built for its iteration. *)
Lemma assign_loop_exact m R : ∀ h,
  Forall (λ r, hashable (Room.id r)) R →
  ∃ R', comprehension (assign_students m) R h
          = Ok (R', h ++ replicate (length R) [])
        ∧ length R' = length R
        ∧ ∀ i r, R !! i = Some r →
            ∃ k, py_hash (Room.id r) = Ok k
                 ∧ R' !! i = Some (Room.new (Room.id r) (Room.name r)
                                     (default (length h + i)%nat (m !! k))).
Proof.
  induction R as [|r R IH]; intros h HR.
  - exists []. split; [simpl; unfold ret; by rewrite app_nil_r|].
    split; [done|]. by intros [].
  - apply Forall_cons in HR as [[k Hk] HR].
    destruct (IH (h ++ [[]]) HR) as (R' & Hrest & Hlen & Hat).
    eexists (_ :: R'). split; [|split; [simpl; by rewrite Hlen|]].
    + simpl. unfold bind at 1. unfold assign_students at 1.
      unfold bind, new_list, lift, ret. rewrite Hk.
      unfold bind, ret in Hrest. rewrite Hrest.
      by rewrite <- (assoc_L _ h [[]]).
    + intros [|i] r0 Hi.
      * injection Hi as <-. exists k. split; [done|]. simpl.
        by rewrite Nat.add_0_r.
      * destruct (Hat i r0 Hi) as (k0 & Hk0 & Hi'). exists k0. split; [done|].
        simpl. rewrite Hi'. do 3 f_equal. rewrite length_app. simpl. lia.
Qed.

Lemma combine_run_exact S R h0 :
  Forall (λ s, hashable (Student.room_id s)) S →
  Forall (λ r, hashable (Room.id r)) R →
  ∃ m h1 R',
    combine S R h0 = Ok (R', h1 ++ replicate (length R) [])
    ∧ grouped h0 S m h1
    ∧ length R' = length R
    ∧ ∀ i r, R !! i = Some r →
        ∃ k, py_hash (Room.id r) = Ok k
             ∧ R' !! i = Some (Room.new (Room.id r) (Room.name r)
                                 (default (length h1 + i)%nat (m !! k))).
Proof.
  intros HS HR.
  destruct (group_loop h0 S [] ∅ h0 (grouped_init h0) HS) as (m & h1 & Hloop & Hg).
  destruct (assign_loop_exact m R h1 HR) as (R' & Hassign & Hlen & Hat).
  exists m, h1, R'. split; [|done].
  unfold combine, bind. by rewrite Hloop.
Qed.

(** Whatever the combine step returns, it returns as described above. *)
Lemma combine_ok_exact S R h0 R' h' :
  combine S R h0 = Ok (R', h') →
  ∃ m h1,
    h' = h1 ++ replicate (length R) []
    ∧ grouped h0 S m h1
    ∧ length R' = length R
    ∧ ∀ i r, R !! i = Some r →
        ∃ k, py_hash (Room.id r) = Ok k
             ∧ R' !! i = Some (Room.new (Room.id r) (Room.name r)
                                 (default (length h1 + i)%nat (m !! k))).
Proof.
  intros Hok.
  destruct (combine_cases S R h0)
    as [[_ Herr]|[(_ & _ & Herr)|(HS & HR & _)]]; [congruence..|].
  destruct (combine_run_exact S R h0 HS HR)
    as (m & h1 & R1 & Hrun & Hg & Hlen & Hat).
  rewrite Hok in Hrun. injection Hrun as -> ->. eauto 6.
Qed.

(** The list object of a room after the combine step: where it is, and
    what it holds. *)
Lemma assigned_list h0 S m h1 n i k :
  grouped h0 S m h1 → (i < n)%nat →
  let l := default (length h1 + i)%nat (m !! k) in
  (length h0 ≤ l < length h1 + n)%nat
  ∧ (h1 ++ replicate n []) !! l = Some (group_of k S)
  ∧ (is_Some (m !! k) ↔ group_of k S ≠ [])
  ∧ (is_Some (m !! k) ↔ l < length h1)%nat.
Proof.
  intros Hg Hi. pose proof (grouped_length _ _ _ _ Hg) as Hlen.
  destruct (m !! k) as [l|] eqn:Hm; simpl.
  - destruct (grouped_some _ _ _ _ Hg _ _ Hm) as (Hl0 & Hl & Hne).
    apply lookup_lt_Some in Hl as Hlt.
    split; [lia|]. split; [by rewrite lookup_app_l|].
    split; (split; [done|eauto]).
  - rewrite (grouped_none _ _ _ _ Hg _ Hm).
    split; [lia|]. split.
    + rewrite lookup_app_r by lia. apply lookup_replicate_2. lia.
    + split; (split; [by intros []|]); [done|lia].
Qed.

End combine_extra.

(** X1.  The combine step joins on dict keys, whatever the identifiers
    are: for students and rooms whose identifiers can be hashed (integers,
    booleans, strings, [None]) each room gets, in order, the students whose
    room identifier is the same key as the room's identifier; [True] and
    [1] are the same key. *)
Theorem combine_groups_by_key (S : list Student.t) (R : list Room.t)
    (h0 : heap) :
  Forall (λ s, hashable (Student.room_id s)) S →
  Forall (λ r, hashable (Room.id r)) R →
  ∃ R' h',
    RoomDataProcessor.combine S R h0 = Ok (R', h')
    ∧ Forall2 (λ r r',
        Room.id r' = Room.id r ∧ Room.name r' = Room.name r
        ∧ h' !! Room.students r'
          = Some (filter (λ s, py_hash (Student.room_id s)
                               = py_hash (Room.id r)) S))
        R R'.
Proof.
  intros HS HR.
  destruct (combine_run S R h0 HS HR) as (m & h1 & R' & Hrun & Hg & HF).
  eexists _, _. split; [exact Hrun|].
  eapply Forall2_impl; [exact HF|]. intros r r' Hrr'.
  destruct (assigned_contents _ _ _ _ _ _ _ Hg Hrr') as (k & Hk & Hl & _).
  destruct Hrr' as (Hid & Hname & _).
  split; [done|]. split; [done|]. rewrite Hl. f_equal.
  unfold group_of. apply list_filter_iff. intros s. by rewrite Hk.
Qed.

(** X2.  The combine step returns normally exactly when every student's room
    identifier and every room's identifier can be a dict key (is not a
    list or a dict); otherwise it raises [TypeError]. *)
Theorem combine_raises_iff_unhashable (S : list Student.t) (R : list Room.t)
    (h0 : heap) :
  ((∃ R' h', RoomDataProcessor.combine S R h0 = Ok (R', h'))
   ↔ Forall (λ s, hashable (Student.room_id s)) S
     ∧ Forall (λ r, hashable (Room.id r)) R)
  ∧ (∀ e, RoomDataProcessor.combine S R h0 = Err e → e = TypeError).
Proof.
  destruct (combine_cases S R h0)
    as [[HS Herr]|[(HS & HR & Herr)|(HS & HR & R' & h' & Hok)]].
  - split; [|intros e; rewrite Herr; congruence]. split.
    + intros (R' & h' & Hok). congruence.
    + intros [HF _]. by destruct (Exists_unhashable _ _ HS).
  - split; [|intros e; rewrite Herr; congruence]. split.
    + intros (R' & h' & Hok). congruence.
    + intros [_ HF]. by destruct (Exists_unhashable _ _ HR).
  - split; [|intros e; rewrite Hok; congruence]. split; eauto.
Qed.

Lemma combine_raises_iff_unhashable_witness :
  ((∃ R' h', RoomDataProcessor.combine Sample.unhashable_students
               Example.rooms Example.store = Ok (R', h'))
   ↔ Forall (λ s, hashable (Student.room_id s)) Sample.unhashable_students
     ∧ Forall (λ r, hashable (Room.id r)) Example.rooms)
  ∧ (∀ e, RoomDataProcessor.combine Sample.unhashable_students
            Example.rooms Example.store = Err e → e = TypeError).
Proof.
  exact (combine_raises_iff_unhashable Sample.unhashable_students
           Example.rooms Example.store).
Defined.

(** X3.  The combine step never touches a list object that existed before
    it ran: the store it returns extends the one it was given, and every
    room it returns refers to a list object the step itself created. *)
Theorem combine_keeps_existing_lists (S : list Student.t) (R : list Room.t)
    (h0 : heap) (R' : list Room.t) (h' : heap) :
  RoomDataProcessor.combine S R h0 = Ok (R', h') →
  h0 `prefix_of` h'
  ∧ Forall (λ r', (length h0 ≤ Room.students r' < length h')%nat) R'.
Proof.
  intros Hok.
  destruct (combine_ok_exact S R h0 R' h' Hok) as (m & h1 & -> & Hg & Hlen & Hat).
  split.
  - exists (drop (length h0) h1 ++ replicate (length R) []).
    rewrite (assoc_L (++)). f_equal.
    rewrite <- (grouped_base _ _ _ _ Hg) at 1. by rewrite take_drop.
  - apply Forall_lookup. intros i r' Hi'.
    assert (i < length R)%nat as Hi
      by (rewrite <- Hlen; by eapply lookup_lt_Some).
    destruct (lookup_lt_is_Some_2 R i Hi) as [r Hr].
    destruct (Hat i r Hr) as (k & Hk & Hi2).
    rewrite Hi' in Hi2. injection Hi2 as ->. simpl.
    destruct (assigned_list h0 S m h1 (length R) i k Hg Hi) as (Hb & _).
    rewrite length_app, length_replicate. exact Hb.
Qed.

(** X4.  After the combine step two rooms of the list refer to the same
    list object exactly when their identifiers are the same key and some
    student has it: rooms with different identifiers never share a list,
    and every room without students has an empty list of its own. *)
Theorem combine_shares_list_iff (S : list Student.t) (R : list Room.t)
    (h0 : heap) (R' : list Room.t) (h' : heap) (i j : nat)
    (ri rj ri' rj' : Room.t) :
  RoomDataProcessor.combine S R h0 = Ok (R', h') →
  i ≠ j →
  R !! i = Some ri → R !! j = Some rj →
  R' !! i = Some ri' → R' !! j = Some rj' →
  Room.students ri' = Room.students rj'
  ↔ py_hash (Room.id ri) = py_hash (Room.id rj) ∧ students_of h' ri' ≠ [].
Proof.
  intros Hok Hij Hi Hj Hi' Hj'.
  destruct (combine_ok_exact S R h0 R' h' Hok) as (m & h1 & -> & Hg & Hlen & Hat).
  destruct (Hat i ri Hi) as (ki & Hki & Hi2).
  destruct (Hat j rj Hj) as (kj & Hkj & Hj2).
  rewrite Hi' in Hi2. injection Hi2 as ->.
  rewrite Hj' in Hj2. injection Hj2 as ->.
  apply lookup_lt_Some in Hi as Hilt. apply lookup_lt_Some in Hj as Hjlt.
  destruct (assigned_list h0 S m h1 (length R) i ki Hg Hilt)
    as (_ & Hli & Hsi & Hbi).
  destruct (assigned_list h0 S m h1 (length R) j kj Hg Hjlt)
    as (_ & Hlj & Hsj & Hbj).
  unfold students_of, deref. simpl. rewrite Hli, Hki, Hkj. simpl.
  split.
  - intros Heq.
    destruct (m !! ki) as [li|] eqn:Hmi; destruct (m !! kj) as [lj|] eqn:Hmj;
      simpl in *.
    + split; [|by apply Hsi]. f_equal.
      rewrite <- Heq in Hmj. by eapply (grouped_inj _ _ _ _ Hg).
    + exfalso. assert (li < length h1)%nat by (apply Hbi; eauto). lia.
    + exfalso. assert (lj < length h1)%nat by (apply Hbj; eauto). lia.
    + lia.
  - intros [Hk Hne]. injection Hk as ->.
    apply Hsi in Hne as [l Hl]. by rewrite Hl.
Qed.

Lemma combine_groups_by_key_witness :
  ∃ R' h',
    RoomDataProcessor.combine Sample.students Sample.rooms Sample.store
      = Ok (R', h')
    ∧ Forall2 (λ r r',
        Room.id r' = Room.id r ∧ Room.name r' = Room.name r
        ∧ h' !! Room.students r'
          = Some (filter (λ s, py_hash (Student.room_id s)
                               = py_hash (Room.id r)) Sample.students))
        Sample.rooms R'.
Proof.
  apply (combine_groups_by_key Sample.students Sample.rooms Sample.store);
    repeat (constructor; [eexists; reflexivity|]); constructor.
Defined.

Lemma combine_keeps_existing_lists_witness :
  Example.store `prefix_of` Example.combined_store
  ∧ Forall (λ r', (length Example.store ≤ Room.students r'
                   < length Example.combined_store)%nat)
      Example.combined_rooms.
Proof.
  apply (combine_keeps_existing_lists Example.students Example.rooms
           Example.store).
  vm_compute. reflexivity.
Defined.

Lemma combine_shares_list_iff_witness :
  Room.students (Room.new (PInt 10) (PStr "Alpha") 3)
  = Room.students (Room.new (PInt 10) (PStr "Alpha again") 3)
  ↔ py_hash (PInt 10) = py_hash (PInt 10)
    ∧ students_of Example.combined_store (Room.new (PInt 10) (PStr "Alpha") 3)
      ≠ [].
Proof.
  apply (combine_shares_list_iff Example.students Example.rooms_dup
           Example.store Sample.combined_dup Example.combined_store 0 2
           (Room.new (PInt 10) (PStr "Alpha") 0)
           (Room.new (PInt 10) (PStr "Alpha again") 2));
    try (vm_compute; reflexivity). lia.
Defined.

(** ** The loaders: what they return and what they raise *)

Section loader_extra.
Context `{Library}.

(** A comprehension of steps that leave the store alone leaves it alone
    and maps item by item. *)
Lemma comprehension_readonly {A B} (f : A → M B) l :
  (∀ x h y h', f x h = Ok (y, h') → h' = h) →
  ∀ h ys h', comprehension f l h = Ok (ys, h') →
    h' = h ∧ Forall2 (λ x y, f x h = Ok (y, h)) l ys.
Proof.
  intros Hf. induction l as [|x l IH]; intros h ys h'; simpl.
  - intros [= <- <-]. split; [done|constructor].
  - unfold bind. destruct (f x h) as [[y h1]|e] eqn:Hx; [|done].
    apply Hf in Hx as Hh. subst h1.
    destruct (comprehension f l h) as [[ys1 h2]|e] eqn:Hl; [|done].
    intros [= <- <-]. destruct (IH h ys1 h2 Hl) as [-> HF].
    split; [done|]. by constructor.
Qed.

(** A comprehension of steps that each create one list creates one list
    per item, one after the other. *)
Lemma comprehension_allocating {A} (f : A → M Room.t) l :
  (∀ x h r h', f x h = Ok (r, h') →
     h' = h ++ [[]] ∧ Room.students r = length h) →
  ∀ h R h', comprehension f l h = Ok (R, h') →
    h' = h ++ replicate (length l) []
    ∧ length R = length l
    ∧ Room.students <$> R = seq (length h) (length l)
    ∧ Forall2 (λ x r, ∃ hx, f x hx = Ok (r, hx ++ [[]])) l R.
Proof.
  intros Hf. induction l as [|x l IH]; intros h R h'; simpl.
  - intros [= <- <-]. rewrite app_nil_r. repeat split. constructor.
  - unfold bind. destruct (f x h) as [[r h1]|e] eqn:Hx; [|done].
    destruct (Hf _ _ _ _ Hx) as [-> Hloc].
    destruct (comprehension f l (h ++ [[]])) as [[R1 h2]|e] eqn:Hl; [|done].
    intros [= <- <-].
    destruct (IH _ _ _ Hl) as (-> & Hlen & Hlocs & HF).
    split; [by rewrite <- app_assoc|]. split; [simpl; by rewrite Hlen|].
    split.
    + rewrite fmap_cons, Hloc, Hlocs, length_app. simpl.
      by rewrite Nat.add_1_r.
    + constructor; [eauto|done].
Qed.

Lemma Room_init_ok id name h r h' :
  Room_init id name h = Ok (r, h') →
  h' = h ++ [[]] ∧ r = Room.new id name (length h).
Proof. unfold Room_init, bind, new_list, ret. by intros [= <- <-]. Qed.

Lemma json_student_of_ok record h s h' :
  JsonDataLoader.student_of record h = Ok (s, h') →
  h' = h ∧ student_from record s.
Proof.
  unfold JsonDataLoader.student_of, student_from, bind, lift, ret.
  destruct (py_getitem record "id"); [|done].
  destruct (py_getitem record "name"); [|done].
  destruct (py_getitem record "room"); [|done].
  by intros [= <- <-].
Qed.

Lemma json_room_of_ok record h r h' :
  JsonDataLoader.room_of record h = Ok (r, h') →
  h' = h ++ [[]] ∧ Room.students r = length h ∧ room_from record r.
Proof.
  unfold JsonDataLoader.room_of, room_from, bind, lift.
  destruct (py_getitem record "id"); [|done].
  destruct (py_getitem record "name"); [|done].
  intros Hinit. by apply Room_init_ok in Hinit as [-> ->].
Qed.

Lemma xml_student_of_ok el h s h' :
  XmlDataLoader.student_of el h = Ok (s, h') → h' = h.
Proof.
  unfold XmlDataLoader.student_of, bind, lift, ret.
  destruct (rbind (XmlDataLoader.find_text el "id") py_int); [|done].
  destruct (XmlDataLoader.find_text el "name"); [|done].
  destruct (rbind (XmlDataLoader.find_text el "room") py_int); [|done].
  by intros [= <- <-].
Qed.

Lemma xml_room_of_ok el h r h' :
  XmlDataLoader.room_of el h = Ok (r, h') →
  h' = h ++ [[]] ∧ Room.students r = length h.
Proof.
  unfold XmlDataLoader.room_of, bind, lift.
  destruct (rbind (XmlDataLoader.find_text el "id") py_int); [|done].
  destruct (XmlDataLoader.find_text el "name"); [|done].
  intros Hinit. by apply Room_init_ok in Hinit as [-> ->].
Qed.

Lemma except_ParseError_ok {A} (body : M A) e h x :
  except_ParseError_raise body e h = Ok x → body h = Ok x.
Proof.
  unfold except_ParseError_raise. destruct (body h) as [y|[]]; congruence.
Qed.

Lemma json_load_ok fs sp rp h S R h' :
  JsonDataLoader.load fs sp rp h = Ok ((S, R), h') →
  ∃ sdoc rdoc srecs rrecs,
    load_json fs sp = Ok sdoc ∧ load_json fs rp = Ok rdoc
    ∧ py_iter sdoc = Ok srecs ∧ py_iter rdoc = Ok rrecs
    ∧ comprehension JsonDataLoader.student_of srecs h = Ok (S, h)
    ∧ comprehension JsonDataLoader.room_of rrecs h = Ok (R, h').
Proof.
  unfold JsonDataLoader.load, bind, lift, ret.
  destruct (load_json fs sp) as [sdoc|]; [|done].
  destruct (load_json fs rp) as [rdoc|]; [|done].
  destruct (py_iter sdoc) as [srecs|] eqn:Es; [|done].
  destruct (comprehension JsonDataLoader.student_of srecs h)
    as [[S1 h1]|] eqn:HS; [|done].
  destruct (py_iter rdoc) as [rrecs|] eqn:Er; [|done].
  destruct (comprehension JsonDataLoader.room_of rrecs h1)
    as [[R1 h2]|] eqn:HR; [|done].
  intros [= <- <- <-].
  destruct (comprehension_readonly JsonDataLoader.student_of srecs
              (λ x h y h' Hx, proj1 (json_student_of_ok x h y h' Hx)) _ _ _ HS)
    as [-> _].
  by exists sdoc, rdoc, srecs, rrecs.
Qed.

Lemma xml_load_ok fs sp rp h S R h' :
  XmlDataLoader.load fs sp rp h = Ok ((S, R), h') →
  ∃ sroot rroot,
    ET_parse fs sp = Ok sroot ∧ ET_parse fs rp = Ok rroot
    ∧ comprehension XmlDataLoader.student_of (ET.children sroot) h = Ok (S, h)
    ∧ comprehension XmlDataLoader.room_of (ET.children rroot) h = Ok (R, h').
Proof.
  unfold XmlDataLoader.load, bind, ret.
  destruct (XmlDataLoader.parse_students fs sp h) as [[S1 h1]|] eqn:HS; [|done].
  destruct (XmlDataLoader.parse_rooms fs rp h1) as [[R1 h2]|] eqn:HR; [|done].
  intros [= <- <- <-].
  apply except_ParseError_ok in HS, HR. unfold bind, lift in HS, HR.
  destruct (ET_parse fs sp) as [sroot|]; [|done].
  destruct (ET_parse fs rp) as [rroot|]; [|done].
  destruct (comprehension_readonly XmlDataLoader.student_of (ET.children sroot)
              xml_student_of_ok _ _ _ HS) as [-> _].
  by exists sroot, rroot.
Qed.

End loader_extra.

(** X5.  Both loaders give every room an empty student list of its own:
    the lists of the rooms are new list objects, one per room and no two
    the same, all empty, and no list object that existed before is
    changed. *)
Theorem loaders_give_rooms_own_empty_lists `{Library} (fs : FileSystem)
    (students_path rooms_path : string) (h : heap)
    (S : list Student.t) (R : list Room.t) (h' : heap) :
  JsonDataLoader.load fs students_path rooms_path h = Ok ((S, R), h')
  ∨ XmlDataLoader.load fs students_path rooms_path h = Ok ((S, R), h') →
  h' = h ++ replicate (length R) []
  ∧ Room.students <$> R = seq (length h) (length R)
  ∧ NoDup (Room.students <$> R)
  ∧ Forall (λ r, h' !! Room.students r = Some []) R.
Proof.
  intros Hload.
  assert (h' = h ++ replicate (length R) []
          ∧ Room.students <$> R = seq (length h) (length R)) as [-> Hlocs].
  { destruct Hload as [Hload|Hload].
    - destruct (json_load_ok _ _ _ _ _ _ _ Hload)
        as (sdoc & rdoc & srecs & rrecs & _ & _ & _ & _ & _ & HR).
      destruct (comprehension_allocating JsonDataLoader.room_of rrecs
                  (λ x h r h' Hx, conj (proj1 (json_room_of_ok x h r h' Hx))
                                    (proj1 (proj2 (json_room_of_ok x h r h' Hx))))
                  _ _ _ HR) as (-> & Hlen & Hlocs & _).
      by rewrite Hlen.
    - destruct (xml_load_ok _ _ _ _ _ _ _ Hload) as (sroot & rroot & _ & _ & _ & HR).
      destruct (comprehension_allocating XmlDataLoader.room_of _
                  xml_room_of_ok _ _ _ HR) as (-> & Hlen & Hlocs & _).
      by rewrite Hlen. }
  split; [done|]. split; [done|]. split.
  - rewrite Hlocs. apply NoDup_seq.
  - by apply fresh_lists_empty.
Qed.

Lemma loaders_give_rooms_own_empty_lists_witness :
  ([[]; []; []] : heap) = [] ++ replicate (length Example.reloaded_rooms) []
  ∧ Room.students <$> Example.reloaded_rooms
    = seq (length (@nil (list Student.t))) (length Example.reloaded_rooms)
  ∧ NoDup (Room.students <$> Example.reloaded_rooms)
  ∧ Forall (λ r, ([[]; []; []] : heap) !! Room.students r = Some [])
      Example.reloaded_rooms.
Proof.
  apply (loaders_give_rooms_own_empty_lists (H:=RefLibrary.library)
           (Example.files Sample.students_json Sample.rooms_json)
           "students" "rooms" [] Example.students).
  left. vm_compute. reflexivity.
Defined.

Section xml_loader_extra.
Context `{Library}.

Lemma plain_children el :
  plain el = true → Forall (λ c, plain c = true) (ET.children el).
Proof.
  destruct el as [tag text children]. simpl.
  rewrite andb_true_iff, forallb_forall. intros [_ Hc].
  apply Forall_forall. intros c Hin. apply Hc. by apply list_elem_of_In.
Qed.

Lemma plain_text el :
  plain el = true → ET.text el = PNone ∨ ∃ s, ET.text el = PStr s.
Proof.
  destruct el as [tag text children]. simpl. rewrite andb_true_iff.
  intros [Ht _]. destruct text; try done; eauto.
Qed.

Lemma find_child el name child :
  ET.find el name = Some child → child ∈ ET.children el.
Proof.
  unfold ET.find. intros Hfind. apply find_some in Hfind as [Hin _].
  by apply list_elem_of_In.
Qed.

(** In a parsed record, a field that [int()] accepts is a literal. *)
Lemma find_int_plain el name z :
  plain el = true →
  rbind (XmlDataLoader.find_text el name) py_int = Ok z →
  has_child_int el name z.
Proof.
  intros Hplain. unfold XmlDataLoader.find_text, has_child_int, has_child_text.
  destruct (ET.find el name) as [child|] eqn:Hfind; [|done]. simpl.
  assert (plain child = true) as Hchild.
  { pose proof (plain_children el Hplain) as Hall.
    rewrite Forall_forall in Hall. apply Hall. by eapply find_child. }
  destruct (plain_text child Hchild) as [->|[lit Hlit]]; [done|].
  rewrite Hlit. simpl. destruct (int_of_str lit) as [z'|] eqn:Hint; [|done].
  intros [= <-]. exists lit. split; [|done]. by exists child.
Qed.

Lemma find_text_ok el name v :
  XmlDataLoader.find_text el name = Ok v → has_child_text el name v.
Proof.
  unfold XmlDataLoader.find_text, has_child_text.
  destruct (ET.find el name) as [child|]; [|done]. intros [= <-]. eauto.
Qed.

Lemma xml_student_of_carried el h s :
  plain el = true →
  XmlDataLoader.student_of el h = Ok (s, h) → carries_student el s.
Proof.
  intros Hplain. unfold XmlDataLoader.student_of, bind, lift, ret.
  destruct (rbind (XmlDataLoader.find_text el "id") py_int) as [i|] eqn:Hi;
    [|done].
  destruct (XmlDataLoader.find_text el "name") as [n|] eqn:Hn; [|done].
  destruct (rbind (XmlDataLoader.find_text el "room") py_int) as [r|] eqn:Hr;
    [|done].
  intros [= <-]. exists i, r. simpl.
  split; [by apply find_int_plain|]. split; [by apply find_text_ok|].
  split; [by apply find_int_plain|]. done.
Qed.

Lemma xml_room_of_carried el h r h' :
  plain el = true →
  XmlDataLoader.room_of el h = Ok (r, h') → carries_room el r.
Proof.
  intros Hplain. unfold XmlDataLoader.room_of, bind, lift.
  destruct (rbind (XmlDataLoader.find_text el "id") py_int) as [i|] eqn:Hi;
    [|done].
  destruct (XmlDataLoader.find_text el "name") as [n|] eqn:Hn; [|done].
  intros Hinit. apply Room_init_ok in Hinit as [_ ->]. exists i. simpl.
  split; [by apply find_int_plain|]. split; [by apply find_text_ok|]. done.
Qed.

End xml_loader_extra.



Section xml_error_extra.
Context `{Library}.

Lemma find_int_literal_error el name e :
  rbind (XmlDataLoader.find_text el name) py_int = Err e → literal_error e.
Proof.
  unfold XmlDataLoader.find_text, literal_error.
  destruct (ET.find el name) as [child|]; simpl; [|intros [= <-]; by left].
  destruct (ET.text child) as [| | | s | |]; simpl; try discriminate;
    try (intros [= <-]; right; by left).
  destruct (int_of_str s); [discriminate|]. intros [= <-]. right. right. eauto.
Qed.

Lemma find_text_literal_error el name e :
  XmlDataLoader.find_text el name = Err e → literal_error e.
Proof.
  unfold XmlDataLoader.find_text.
  destruct (ET.find el name); [discriminate|]. intros [= <-]. by left.
Qed.

Lemma student_of_literal_error el h e :
  XmlDataLoader.student_of el h = Err e → literal_error e.
Proof.
  unfold XmlDataLoader.student_of, bind, lift, ret.
  destruct (rbind (XmlDataLoader.find_text el "id") py_int) eqn:E1;
    [|intros [= <-]; by eapply find_int_literal_error].
  destruct (XmlDataLoader.find_text el "name") eqn:E2;
    [|intros [= <-]; by eapply find_text_literal_error].
  destruct (rbind (XmlDataLoader.find_text el "room") py_int) eqn:E3;
    [discriminate|intros [= <-]; by eapply find_int_literal_error].
Qed.

Lemma room_of_literal_error el h e :
  XmlDataLoader.room_of el h = Err e → literal_error e.
Proof.
  unfold XmlDataLoader.room_of, Room_init, bind, lift, new_list, ret.
  destruct (rbind (XmlDataLoader.find_text el "id") py_int) eqn:E1;
    [|intros [= <-]; by eapply find_int_literal_error].
  destruct (XmlDataLoader.find_text el "name") eqn:E2;
    [discriminate|intros [= <-]; by eapply find_text_literal_error].
Qed.

(** No record error has the message of a malformed file. *)
Lemma literal_error_not_parse_error path :
  ¬ literal_error (ValueError (xml_error_message path)).
Proof.
  intros [?|[?|[s Hs]]]; discriminate.
Qed.

Lemma ET_parse_cases fs path :
  (ET_parse fs path = Err (OSError path) ∧ fs !! path = None)
  ∨ (ET_parse fs path = Err ParseError ∧ malformed_xml fs path)
  ∨ (∃ root, ET_parse fs path = Ok root ∧ ¬ malformed_xml fs path).
Proof.
  unfold ET_parse, malformed_xml.
  destruct (fs !! path) as [content|] eqn:Hfs; [|by left].
  right. destruct (ET_fromstring content) as [root|] eqn:Hroot.
  - right. exists root. split; [done|]. intros (c & [= <-] & Hc). congruence.
  - left. eauto.
Qed.

End xml_error_extra.

(** X7.  [parse_students] and [parse_rooms] raise the error
    "Error parsing XML file: <path>" exactly when the file at the path
    exists and is not well-formed XML: a missing file, a missing child or
    a field that is not an integer never gives this error. *)
Theorem xml_error_message_iff_malformed `{Library} (fs : FileSystem)
    (path : string) (h : heap) :
  (XmlDataLoader.parse_students fs path h
     = Err (ValueError (xml_error_message path))
   ↔ malformed_xml fs path)
  ∧ (XmlDataLoader.parse_rooms fs path h
       = Err (ValueError (xml_error_message path))
     ↔ malformed_xml fs path).
Proof.
  split; (split; [|by (apply parse_students_malformed
                       || apply parse_rooms_malformed)]).
  - destruct (ET_parse_cases fs path)
      as [[Hp _]|[[_ Hbad]|(root & Hroot & _)]]; [|done|].
    + unfold XmlDataLoader.parse_students, except_ParseError_raise, bind, lift.
      by rewrite Hp.
    + rewrite (parse_students_root fs path root h Hroot). intros Herr.
      destruct (literal_error_not_parse_error path).
      eapply (comprehension_error XmlDataLoader.student_of literal_error);
        [|exact Herr]. intros x h1 e. apply student_of_literal_error.
  - destruct (ET_parse_cases fs path)
      as [[Hp _]|[[_ Hbad]|(root & Hroot & _)]]; [|done|].
    + unfold XmlDataLoader.parse_rooms, except_ParseError_raise, bind, lift.
      by rewrite Hp.
    + rewrite (parse_rooms_root fs path root h Hroot). intros Herr.
      destruct (literal_error_not_parse_error path).
      eapply (comprehension_error XmlDataLoader.room_of literal_error);
        [|exact Herr]. intros x h1 e. apply room_of_literal_error.
Qed.

Lemma xml_error_message_iff_malformed_witness :
  let fs := Example.files Example.broken_students_xml Example.rooms_xml in
  (XmlDataLoader.parse_students (H:=RefLibrary.library) fs "students" []
     = Err (ValueError (xml_error_message "students"))
   ↔ malformed_xml (H:=RefLibrary.library) fs "students")
  ∧ (XmlDataLoader.parse_rooms (H:=RefLibrary.library) fs "students" []
       = Err (ValueError (xml_error_message "students"))
     ↔ malformed_xml (H:=RefLibrary.library) fs "students").
Proof.
  exact (xml_error_message_iff_malformed (H:=RefLibrary.library)
           (Example.files Example.broken_students_xml Example.rooms_xml)
           "students" []).
Defined.

Section json_error_extra.
Context `{Library}.

(** A comprehension stops at the first item that raises. *)
Lemma comprehension_stops {A B} (f : A → M B) good bad rest e :
  (∀ x h, x ∈ good → ∃ y, f x h = Ok (y, h)) →
  (∀ h, f bad h = Err e) →
  ∀ h, comprehension f (good ++ bad :: rest) h = Err e.
Proof.
  intros Hgood Hbad. induction good as [|x good IH]; intros h; simpl; unfold bind.
  - by rewrite Hbad.
  - destruct (Hgood x h) as [y ->]; [left|].
    rewrite IH; [done|]. intros x' h' Hx'. apply Hgood. by right.
Qed.

Lemma comprehension_stops_allocating {A} (f : A → M Room.t) good bad rest e :
  (∀ x h, x ∈ good → ∃ r, f x h = Ok (r, h ++ [[]])) →
  (∀ h, f bad h = Err e) →
  ∀ h, comprehension f (good ++ bad :: rest) h = Err e.
Proof.
  intros Hgood Hbad. induction good as [|x good IH]; intros h; simpl; unfold bind.
  - by rewrite Hbad.
  - destruct (Hgood x h) as [y ->]; [left|].
    rewrite IH; [done|]. intros x' h' Hx'. apply Hgood. by right.
Qed.

Lemma has_field_getitem entries key :
  has_field (PDict entries) key = false →
  py_getitem (PDict entries) key = Err (KeyError key).
Proof.
  unfold has_field. simpl. by destruct (dict_get entries key).
Qed.

Lemma has_field_true record key :
  has_field record key = true → ∃ v, py_getitem record key = Ok v.
Proof. unfold has_field. destruct (py_getitem record key); [eauto|done]. Qed.

Lemma json_student_of_first_missing record e h :
  first_missing ["id"; "name"; "room"] record = Some e →
  JsonDataLoader.student_of record h = Err e.
Proof.
  unfold JsonDataLoader.student_of, bind, lift.
  destruct record as [| | | | |entries]; try (by intros [= <-]).
  unfold first_missing. simpl List.find.
  destruct (has_field (PDict entries) "id") eqn:H1; cbn [negb];
    [|intros Hx; simpl in Hx; injection Hx as <-; by rewrite has_field_getitem].
  destruct (has_field_true _ _ H1) as [v1 ->].
  destruct (has_field (PDict entries) "name") eqn:H2; cbn [negb];
    [|intros Hx; simpl in Hx; injection Hx as <-; by rewrite has_field_getitem].
  destruct (has_field_true _ _ H2) as [v2 ->].
  destruct (has_field (PDict entries) "room") eqn:H3; cbn [negb];
    [done|intros Hx; simpl in Hx; injection Hx as <-; by rewrite has_field_getitem].
Qed.

Lemma json_room_of_first_missing record e h :
  first_missing ["id"; "name"] record = Some e →
  JsonDataLoader.room_of record h = Err e.
Proof.
  unfold JsonDataLoader.room_of, bind, lift.
  destruct record as [| | | | |entries]; try (by intros [= <-]).
  unfold first_missing. simpl List.find.
  destruct (has_field (PDict entries) "id") eqn:H1; cbn [negb];
    [|intros Hx; simpl in Hx; injection Hx as <-; by rewrite has_field_getitem].
  destruct (has_field_true _ _ H1) as [v1 ->].
  destruct (has_field (PDict entries) "name") eqn:H2; cbn [negb];
    [done|intros Hx; simpl in Hx; injection Hx as <-; by rewrite has_field_getitem].
Qed.

End json_error_extra.

(** X8.  The JSON loader stops at the first record that lacks a required
    field, and its error names the first field that record lacks, in the
    order [id], [name], [room]; a record that is not an object gives
    [TypeError].  Student records are read before room records, and the
    records after the failing one are not read. *)
Theorem json_loader_reports_first_missing_field `{Library} (fs : FileSystem)
    (students_path rooms_path : string) (h : heap) (sdoc rdoc : pyval)
    (good : list pyval) (bad : pyval) (rest : list pyval) (e : exn) :
  load_json fs students_path = Ok sdoc →
  load_json fs rooms_path = Ok rdoc →
  (py_iter sdoc = Ok (good ++ bad :: rest) →
   Forall (λ r, student_complete r = true) good →
   first_missing ["id"; "name"; "room"] bad = Some e →
   JsonDataLoader.load fs students_path rooms_path h = Err e)
  ∧ (∀ srecs,
       py_iter sdoc = Ok srecs →
       Forall (λ r, student_complete r = true) srecs →
       py_iter rdoc = Ok (good ++ bad :: rest) →
       Forall (λ r, room_complete r = true) good →
       first_missing ["id"; "name"] bad = Some e →
       JsonDataLoader.load fs students_path rooms_path h = Err e).
Proof.
  intros Hs Hr. unfold JsonDataLoader.load, bind, lift. rewrite Hs, Hr. split.
  - intros -> Hgood Hbad.
    rewrite (comprehension_stops JsonDataLoader.student_of good bad rest e);
      [done| |].
    + intros x h1 Hx. rewrite Forall_forall in Hgood.
      destruct (json_student_of_complete x h1 (Hgood x Hx)) as (s & Hs1 & _).
      eauto.
    + intros h1. by apply json_student_of_first_missing.
  - intros srecs -> Hsrecs -> Hgood Hbad.
    destruct (json_students_complete srecs h Hsrecs) as (S & -> & _).
    rewrite (comprehension_stops_allocating JsonDataLoader.room_of
               good bad rest e); [done| |].
    + intros x h1 Hx. rewrite Forall_forall in Hgood.
      destruct (json_room_of_complete x h1 (Hgood x Hx)) as (r & Hr1 & _).
      eauto.
    + intros h1. by apply json_room_of_first_missing.
Qed.

Lemma json_loader_reports_first_missing_field_witness :
  JsonDataLoader.load (H:=RefLibrary.library)
    (Example.files Sample.second_incomplete_json Example.empty_json)
    "students" "rooms" []
  = Err (KeyError "name").
Proof.
  refine (proj1 (json_loader_reports_first_missing_field (H:=RefLibrary.library)
            (Example.files Sample.second_incomplete_json Example.empty_json)
            "students" "rooms" []
            (PList [PDict [("id", PInt 1); ("name", PStr "Ann"); ("room", PInt 10)];
                    PDict [("id", PInt 2)]; PDict []])
            (PList [])
            [PDict [("id", PInt 1); ("name", PStr "Ann"); ("room", PInt 10)]]
            (PDict [("id", PInt 2)]) [PDict []] (KeyError "name") _ _) _ _ _).
  - vm_compute. reflexivity.
  - vm_compute. reflexivity.
  - reflexivity.
  - repeat constructor.
  - reflexivity.
Defined.

(** ** The XML serializer: layout and errors *)

Section xml_layout_facts.

Lemma str_map_cons f c s : str_map f (String c s) = f c +:+ str_map f s.
Proof.
  unfold str_map. simpl. destruct (list_ascii_of_string s); simpl; [|done].
  by rewrite append_nil_r.
Qed.

Lemma str_map_app f a b : str_map f (a +:+ b) = str_map f a +:+ str_map f b.
Proof.
  induction a as [|c a IH]; [done|].
  by rewrite append_cons, !str_map_cons, IH, append_assoc.
Qed.

Lemma append_empty a b :
  String.eqb (a +:+ b) "" = String.eqb a "" && String.eqb b "".
Proof. by destruct a. Qed.

(** The three replacements of [_escape_cdata], one after the other, are
    one pass over the characters. *)
Lemma escape_cdata_escaped s :
  ET.escape_cdata (PStr s) = Ok (XmlLayout.escaped s).
Proof.
  unfold ET.escape_cdata, XmlLayout.escaped, str_replace. f_equal.
  induction s as [|c s IH]; [done|].
  rewrite !str_map_cons, !str_map_app, IH. f_equal.
  by destruct c as [[] [] [] [] [] [] [] []].
Qed.

Lemma escaped_empty s :
  String.eqb (XmlLayout.escaped s) "" = String.eqb s "".
Proof.
  destruct s as [|c s]; [done|]. unfold XmlLayout.escaped.
  rewrite str_map_cons, append_empty.
  by destruct (Ascii.eqb c "&"), (Ascii.eqb c "<"), (Ascii.eqb c ">").
Qed.



Lemma element_opens tag body :
  ∃ rest, XmlLayout.element tag body = String "<" rest.
Proof. unfold XmlLayout.element. destruct (String.eqb body ""); eauto. Qed.

Lemma concat_elements_empty {A B} (f : A → B) (g : A → string) l :
  (∀ x, ∃ rest, g x = String "<" rest) →
  String.eqb (String.concat "" (map g l)) "" = forallb (λ _, false) (map f l).
Proof.
  intros Hg. destruct l as [|x l]; [done|]. simpl.
  destruct (Hg x) as [rest ->]. by destruct (map g l).
Qed.

Lemma serialize_xml_unfold tag text children :
  ET.serialize_xml (ET.mk tag text children)
  = if py_truthy text || negb (forallb (λ _, false) children) then
      rbind (if py_truthy text then ET.escape_cdata text else Ok "") (λ t,
      rbind (ET.sequence (map ET.serialize_xml children)) (λ cs,
      Ok ("<" +:+ tag +:+ ">" +:+ t +:+ String.concat "" cs
          +:+ "</" +:+ tag +:+ ">")))
    else Ok ("<" +:+ tag +:+ " />").
Proof. reflexivity. Qed.

(** The text of an element with a writable name. *)
Lemma writable_text v :
  writable_name v = true →
  (if py_truthy v then ET.escape_cdata v else Ok "") = Ok (XmlLayout.name v)
  ∧ py_truthy v = negb (String.eqb (XmlLayout.name v) "").
Proof.
  unfold writable_name. destruct v as [|b|z|s|items|entries].
  - done.
  - by destruct b.
  - simpl. by destruct (z =? 0)%Z.
  - intros _. unfold XmlLayout.name.
    rewrite escaped_empty, escape_cdata_escaped.
    unfold py_truthy. by destruct s.
  - by destruct items.
  - by destruct entries.
Qed.

Lemma unwritable_text v :
  writable_name v = false →
  py_truthy v = true ∧ ET.escape_cdata v = Err TypeError.
Proof.
  unfold writable_name. destruct v as [|b|z|s|items|entries].
  - done.
  - by destruct b.
  - simpl. by destruct (z =? 0)%Z.
  - done.
  - by destruct items.
  - by destruct entries.
Qed.

Lemma serialize_xml_layout tag v children ts :
  writable_name v = true →
  ET.sequence (map ET.serialize_xml children) = Ok ts →
  String.eqb (String.concat "" ts) "" = forallb (λ _, false) children →
  ET.serialize_xml (ET.mk tag v children)
  = Ok (XmlLayout.element tag (XmlLayout.name v +:+ String.concat "" ts)).
Proof.
  intros Hv Hts Hempty. rewrite serialize_xml_unfold, Hts.
  destruct (writable_text v Hv) as [-> ->]. rewrite <- Hempty.
  unfold XmlLayout.element. rewrite append_empty.
  destruct (String.eqb (XmlLayout.name v) ""),
    (String.eqb (String.concat "" ts) ""); simpl;
    by rewrite ?append_assoc.
Qed.

Lemma serialize_xml_text_error tag v children :
  writable_name v = false →
  ET.serialize_xml (ET.mk tag v children) = Err TypeError.
Proof.
  intros [Hv He]%unwritable_text. by rewrite serialize_xml_unfold, Hv, He.
Qed.

Lemma serialize_xml_children_error tag v x children e :
  writable_name v = true →
  ET.sequence (map ET.serialize_xml (x :: children)) = Err e →
  ET.serialize_xml (ET.mk tag v (x :: children)) = Err e.
Proof.
  intros Hv He. rewrite serialize_xml_unfold, He.
  destruct (writable_text v Hv) as [-> _].
  by rewrite orb_true_r.
Qed.

(** A leaf is written if and only if its text is writable. *)
Lemma serialize_xml_leaf_cases tag v :
  ET.serialize_xml (ET.mk tag v [])
  = if writable_name v then Ok (XmlLayout.element tag (XmlLayout.name v))
    else Err TypeError.
Proof.
  destruct (writable_name v) eqn:Hv.
  - rewrite (serialize_xml_layout tag v [] []); try done.
    by rewrite append_nil_r.
  - by apply serialize_xml_text_error.
Qed.

Lemma serialize_xml_number tag v :
  ET.serialize_xml (ET.mk tag (PStr (py_str v)) [])
  = Ok (XmlLayout.element tag (XmlLayout.number v)).
Proof. by rewrite serialize_xml_leaf_cases. Qed.

(** Writing a list of elements, each of which is written if and only if
    it is [ok]. *)
Lemma sequence_cases {A} (f : A → ET.Element) (g : A → string)
    (ok : A → bool) (l : list A) :
  (∀ x, ET.serialize_xml (f x) = if ok x then Ok (g x) else Err TypeError) →
  ET.sequence (map ET.serialize_xml (map f l))
  = if forallb ok l then Ok (map g l) else Err TypeError.
Proof.
  intros Hf. induction l as [|x l IH]; [done|]. simpl.
  rewrite Hf, IH. by destruct (ok x), (forallb ok l).
Qed.

Definition student_writable (s : Student.t) : bool :=
  writable_name (Student.name s).

Definition room_writable (h : heap) (r : Room.t) : bool :=
  writable_name (Room.name r) && forallb student_writable (students_of h r).

Lemma student_element_cases s :
  ET.serialize_xml (XmlDataSerializer.student_element s)
  = if student_writable s then Ok (XmlLayout.student s) else Err TypeError.
Proof.
  unfold XmlDataSerializer.student_element, student_writable.
  destruct (writable_name (Student.name s)) eqn:Hs.
  - rewrite (serialize_xml_layout _ _ _
               [XmlLayout.element "id" (XmlLayout.number (Student.id s));
                XmlLayout.element "name" (XmlLayout.name (Student.name s));
                XmlLayout.element "room" (XmlLayout.number (Student.room_id s))]);
      [done|done| |].
    + cbn [map ET.sequence].
      by rewrite !serialize_xml_number, serialize_xml_leaf_cases, Hs.
    + cbn [String.concat].
      by destruct (element_opens "id" (XmlLayout.number (Student.id s)))
        as [rest ->].
  - apply serialize_xml_children_error; [done|]. cbn [map ET.sequence].
    by rewrite !serialize_xml_number, serialize_xml_leaf_cases, Hs.
Qed.

Lemma students_element_cases (S : list Student.t) :
  ET.serialize_xml
    (ET.mk "Students" PNone (map XmlDataSerializer.student_element S))
  = if forallb student_writable S
    then Ok (XmlLayout.element "Students"
               (String.concat "" (map XmlLayout.student S)))
    else Err TypeError.
Proof.
  pose proof (sequence_cases XmlDataSerializer.student_element
                XmlLayout.student student_writable S student_element_cases)
    as Hseq.
  destruct (forallb student_writable S) eqn:HS.
  - rewrite (serialize_xml_layout _ _ _ (map XmlLayout.student S)); try done.
    apply concat_elements_empty. intros s. apply element_opens.
  - destruct S as [|s S]; [done|].
    by apply serialize_xml_children_error.
Qed.

Lemma room_element_cases h r :
  ET.serialize_xml (XmlDataSerializer.room_element h r)
  = if room_writable h r then Ok (XmlLayout.room h r) else Err TypeError.
Proof.
  unfold XmlDataSerializer.room_element, room_writable.
  fold (students_of h r).
  pose proof (students_element_cases (students_of h r)) as HS.
  destruct (writable_name (Room.name r)) eqn:Hr; simpl andb.
  - destruct (forallb student_writable (students_of h r)) eqn:Hall.
    + rewrite (serialize_xml_layout _ _ _
                 [XmlLayout.element "id" (XmlLayout.number (Room.id r));
                  XmlLayout.element "name" (XmlLayout.name (Room.name r));
                  XmlLayout.element "Students"
                    (String.concat ""
                       (map XmlLayout.student (students_of h r)))]);
        [done|done| |].
      * cbn [map ET.sequence].
        by rewrite serialize_xml_number, serialize_xml_leaf_cases, Hr, HS.
      * cbn [String.concat].
        by destruct (element_opens "id" (XmlLayout.number (Room.id r)))
          as [rest ->].
    + apply serialize_xml_children_error; [done|]. cbn [map ET.sequence].
      by rewrite serialize_xml_number, serialize_xml_leaf_cases, Hr, HS.
  - apply serialize_xml_children_error; [done|]. cbn [map ET.sequence].
    by rewrite serialize_xml_number, serialize_xml_leaf_cases, Hr.
Qed.

Lemma root_element_cases h rooms :
  ET.tostring (XmlDataSerializer.root_element h rooms)
  = if forallb (room_writable h) rooms
    then Ok (XmlLayout.document h rooms) else Err TypeError.
Proof.
  unfold ET.tostring, XmlDataSerializer.root_element.
  pose proof (sequence_cases (XmlDataSerializer.room_element h)
                (XmlLayout.room h) (room_writable h) rooms
                (room_element_cases h)) as Hseq.
  destruct (forallb (room_writable h) rooms) eqn:HR.
  - rewrite (serialize_xml_layout _ _ _ (map (XmlLayout.room h) rooms));
      try done.
    apply concat_elements_empty. intros r. apply element_opens.
  - destruct rooms as [|r rooms]; [done|].
    by apply serialize_xml_children_error.
Qed.

Lemma xml_writable_rooms h rooms :
  xml_writable h rooms ↔ forallb (room_writable h) rooms = true.
Proof.
  unfold xml_writable. rewrite forallb_forall, Forall_forall.
  split; intros Hall r Hr.
  - apply list_elem_of_In in Hr. destruct (Hall r Hr) as [Hn Hs].
    unfold room_writable. rewrite Hn. simpl. apply forallb_forall.
    intros s Hin%list_elem_of_In. rewrite Forall_forall in Hs. by apply Hs.
  - apply list_elem_of_In in Hr. specialize (Hall r Hr).
    unfold room_writable in Hall. apply andb_true_iff in Hall as [Hn Hs].
    split; [done|]. apply Forall_forall. intros s Hin%list_elem_of_In.
    rewrite forallb_forall in Hs. by apply Hs.
Qed.

End xml_layout_facts.





(** ** The whole pipeline *)

Section pipeline_facts.
Context `{Library}.

(** The combine step on hashable identifiers: every room gets the
    students of its key. *)
Lemma combine_by_key (S : list Student.t) (R : list Room.t) (h0 : heap) :
  Forall (λ s, hashable (Student.room_id s)) S →
  Forall (λ r, hashable (Room.id r)) R →
  ∃ R' h',
    RoomDataProcessor.combine S R h0 = Ok (R', h')
    ∧ Forall2 (λ r r',
        Room.id r' = Room.id r ∧ Room.name r' = Room.name r
        ∧ students_of h' r'
          = filter (λ s, same_key (Student.room_id s) (Room.id r)) S)
        R R'.
Proof.
  intros HS HR.
  destruct (combine_run S R h0 HS HR)
    as (m & h1 & R' & Hrun & Hg & HF).
  eexists _, _. split; [exact Hrun|].
  eapply Forall2_impl; [exact HF|]. intros r r' Hrr'.
  destruct (assigned_contents _ _ _ _ _ _ _ Hg Hrr')
    as (k & Hk & Hl & _).
  destruct Hrr' as (Hid & Hname & _).
  split; [done|]. split; [done|].
  unfold students_of, deref. rewrite Hl. simpl.
  unfold group_of, same_key. apply list_filter_iff. intros s. by rewrite Hk.
Qed.

Lemma hashable_int v : is_int v = true → hashable v.
Proof. destruct v; try done. intros _. by eexists. Qed.

Lemma plain_child_text el name v :
  plain el = true → has_child_text el name v →
  writable_name v = true.
Proof.
  intros Hel (child & Hfind & <-).
  apply find_child in Hfind.
  pose proof (plain_children el Hel) as Hkids.
  rewrite Forall_forall in Hkids.
  destruct (plain_text child (Hkids child Hfind)) as [->|[s ->]]; done.
Qed.

(** What the XML loader gives: integer identifiers, and names that are
    text or [None]. *)
Lemma xml_loaded_students children h S h' :
  Forall (λ c, plain c = true) children →
  comprehension XmlDataLoader.student_of children h = Ok (S, h') →
  Forall (λ s, is_int (Student.room_id s) = true
               ∧ writable_name (Student.name s) = true) S.
Proof.
  intros Hplain Hc.
  destruct (comprehension_readonly XmlDataLoader.student_of children
              xml_student_of_ok h S h' Hc) as [-> HF].
  clear Hc. induction HF as [|el s children S Hs _ IH]; [constructor|].
  apply Forall_cons in Hplain as [Hel Hplain].
  constructor; [|by apply IH].
  destruct (xml_student_of_carried el h s Hel Hs)
    as (i & r & _ & Hname & _ & _ & Hroom).
  rewrite Hroom. split; [done|]. by eapply plain_child_text.
Qed.

Lemma xml_loaded_rooms children h R h' :
  Forall (λ c, plain c = true) children →
  comprehension XmlDataLoader.room_of children h = Ok (R, h') →
  Forall (λ r, is_int (Room.id r) = true
               ∧ writable_name (Room.name r) = true) R.
Proof.
  intros Hplain Hc.
  destruct (comprehension_allocating XmlDataLoader.room_of children
              xml_room_of_ok h R h' Hc) as (_ & _ & _ & HF).
  clear Hc. induction HF as [|el r children R [hx Hr] _ IH]; [constructor|].
  apply Forall_cons in Hplain as [Hel Hplain].
  constructor; [|by apply IH].
  destruct (xml_room_of_carried el hx r _ Hel Hr) as (i & _ & Hname & Hid).
  rewrite Hid. split; [done|]. by eapply plain_child_text.
Qed.

(** Data with hashable identifiers and writable names goes through the
    combine step and both serializers. *)
Lemma combine_then_serialize (serializer : DataSerializer) S R h :
  serializer = JsonDataSerializer.serializer
  ∨ serializer = XmlDataSerializer.serializer →
  Forall (λ s, is_int (Student.room_id s) = true
               ∧ writable_name (Student.name s) = true) S →
  Forall (λ r, is_int (Room.id r) = true
               ∧ writable_name (Room.name r) = true) R →
  ∃ R' h' text,
    RoomDataProcessor.combine S R h = Ok (R', h')
    ∧ serialize R' h' = Ok (text, h').
Proof.
  intros Hser HS HR.
  destruct (combine_by_key S R h) as (R' & h' & Hrun & HF).
  { eapply Forall_impl; [exact HS|]. intros s [Hs _]. by apply hashable_int. }
  { eapply Forall_impl; [exact HR|]. intros r [Hr _]. by apply hashable_int. }
  exists R', h'. destruct Hser as [->| ->].
  - eexists. split; [exact Hrun|]. reflexivity.
  - exists (XmlLayout.document h' R'). split; [exact Hrun|].
    simpl. unfold XmlDataSerializer.serialize.
    rewrite root_element_cases.
    assert (forallb (room_writable h') R' = true) as ->; [|done].
    apply xml_writable_rooms. unfold xml_writable.
    clear Hrun. induction HF as [|r r' R R' (Hid & Hname & Hst) _ IH];
      [constructor|].
    apply Forall_cons in HR as [[_ Hr] HR].
    constructor; [|by apply IH].
    rewrite Hname. split; [done|]. rewrite Hst.
    apply Forall_forall. intros s [_ Hs]%list_elem_of_filter.
    rewrite Forall_forall in HS. by destruct (HS s Hs).
Qed.

End pipeline_facts.

(** X11.  With XML input, loading is the only step that can fail: when
    the elements the parser returns have a string or [None] as text, the
    program up to [output_data] raises an error if and only if
    [XmlDataLoader.load] raises it; once the two files are loaded, the
    combine step and the chosen serializer return normally. *)
Theorem xml_input_fails_only_on_load `{Library} (args : Args.t)
    (fs : FileSystem) :
  Args.input_format args = "xml" →
  Args.output_format args = "json" ∨ Args.output_format args = "xml" →
  (∀ root, ET_parse fs (Args.students_file args) = Ok root → plain root = true) →
  (∀ root, ET_parse fs (Args.rooms_file args) = Ok root → plain root = true) →
  ∀ e, output_data args fs = Err e
       ↔ XmlDataLoader.load fs (Args.students_file args)
           (Args.rooms_file args) [] = Err e.
Proof.
  intros Hin Hout Hsp Hrp e. unfold output_data. rewrite Hin. simpl.
  destruct (XmlDataLoader.load fs (Args.students_file args)
              (Args.rooms_file args) []) as [[[S R] h']|e'] eqn:Hload.
  - rewrite (combine_rooms_after_load XmlDataLoader.loader
               _ _ _ _ S R h' Hload).
    destruct (xml_load_ok _ _ _ _ _ _ _ Hload)
      as (sroot & rroot & Hs & Hr & HS & HR).
    apply xml_loaded_students in HS; [|by apply plain_children, Hsp].
    apply xml_loaded_rooms in HR; [|by apply plain_children, Hrp].
    destruct Hout as [Hout|Hout]; rewrite Hout; simpl.
    + destruct (combine_then_serialize JsonDataSerializer.serializer S R h'
                  (or_introl eq_refl) HS HR) as (R' & h'' & text & -> & Hser).
      simpl in *. rewrite ?Hser. simpl. split; intros ?; discriminate.
    + destruct (combine_then_serialize XmlDataSerializer.serializer S R h'
                  (or_intror eq_refl) HS HR) as (R' & h'' & text & -> & Hser).
      simpl in *. rewrite ?Hser. simpl. split; intros ?; discriminate.
  - rewrite (combine_rooms_load_error XmlDataLoader.loader _ _ _ _ e' Hload).
    simpl. split; intros [= ->]; reflexivity.
Qed.

Lemma xml_input_fails_only_on_load_witness :
  let fs := Example.files Sample.worded_students_xml Example.rooms_xml in
  let e := ValueError "invalid literal for int() with base 10: 'two'" in
  output_data (H:=RefLibrary.library)
    (Args.new "students" "rooms" "xml" "xml" None) fs = Err e
  ↔ XmlDataLoader.load (H:=RefLibrary.library) fs "students" "rooms" []
    = Err e.
Proof.
  intros fs e.
  apply (xml_input_fails_only_on_load (H:=RefLibrary.library)
           (Args.new "students" "rooms" "xml" "xml" None) fs).
  - reflexivity.
  - right. reflexivity.
  - intros root Hroot. vm_compute in Hroot. injection Hroot as <-. reflexivity.
  - intros root Hroot. vm_compute in Hroot. injection Hroot as <-. reflexivity.
Defined.

Section json_pipeline_facts.
Context `{Library}.








End json_pipeline_facts.



(** ** [main] and the files *)

Section frame_facts.
Context `{Library}.

Lemma load_json_frame fs fs' path :
  fs !! path = fs' !! path → load_json fs path = load_json fs' path.
Proof. unfold load_json. by intros ->. Qed.

Lemma ET_parse_frame fs fs' path :
  fs !! path = fs' !! path → ET_parse fs path = ET_parse fs' path.
Proof. unfold ET_parse. by intros ->. Qed.

Lemma json_load_frame fs fs' sp rp h :
  fs !! sp = fs' !! sp → fs !! rp = fs' !! rp →
  JsonDataLoader.load fs sp rp h = JsonDataLoader.load fs' sp rp h.
Proof.
  intros Hs Hr. unfold JsonDataLoader.load.
  by rewrite (load_json_frame fs fs' sp Hs), (load_json_frame fs fs' rp Hr).
Qed.

Lemma xml_load_frame fs fs' sp rp h :
  fs !! sp = fs' !! sp → fs !! rp = fs' !! rp →
  XmlDataLoader.load fs sp rp h = XmlDataLoader.load fs' sp rp h.
Proof.
  intros Hs Hr.
  unfold XmlDataLoader.load, XmlDataLoader.parse_students,
    XmlDataLoader.parse_rooms.
  by rewrite (ET_parse_frame fs fs' sp Hs), (ET_parse_frame fs fs' rp Hr).
Qed.

Lemma output_data_frame args fs fs' :
  fs !! Args.students_file args = fs' !! Args.students_file args →
  fs !! Args.rooms_file args = fs' !! Args.rooms_file args →
  output_data args fs = output_data args fs'.
Proof.
  intros Hs Hr. unfold output_data, RoomDataProcessor.combine_rooms, bind.
  destruct (String.eqb (Args.input_format args) "json"); simpl.
  { by rewrite (json_load_frame fs fs' _ _ [] Hs Hr). }
  destruct (String.eqb (Args.input_format args) "xml"); simpl; [|done].
  by rewrite (xml_load_frame fs fs' _ _ [] Hs Hr).
Qed.

End frame_facts.

(** X13.  The program reads the two input files and nothing else: in two
    worlds whose file systems agree on the students file and on the rooms
    file, it gives the same output text or the same error, with either
    loader and either serializer, and [main] ends the same way and prints
    the same. *)
Theorem output_depends_only_on_inputs `{Library} (args : Args.t)
    (fs fs' : FileSystem) :
  fs !! Args.students_file args = fs' !! Args.students_file args →
  fs !! Args.rooms_file args = fs' !! Args.rooms_file args →
  output_data args fs = output_data args fs'
  ∧ ∀ can_write out,
      (main args (mkWorld fs can_write out)).2
      = (main args (mkWorld fs' can_write out)).2
      ∧ stdout (main args (mkWorld fs can_write out)).1
        = stdout (main args (mkWorld fs' can_write out)).1.
Proof.
  intros Hs Hr. pose proof (output_data_frame args fs fs' Hs Hr) as Hdata.
  split; [exact Hdata|]. intros wr out.
  unfold main, write_file. simpl. rewrite <- Hdata.
  destruct (output_data args fs) as [text|e]; [|done].
  destruct (destination args) as [path|]; [|done].
  by destruct (wr path).
Qed.

Lemma output_depends_only_on_inputs_witness :
  let args := Args.new "students" "rooms" "xml" "json" None in
  let fs := Example.files Example.students_xml Example.rooms_xml in
  let fs' := <["notes" := "text"]> fs in
  output_data (H:=RefLibrary.library) args fs
  = output_data (H:=RefLibrary.library) args fs'
  ∧ ∀ can_write out,
      (main (H:=RefLibrary.library) args (mkWorld fs can_write out)).2
      = (main (H:=RefLibrary.library) args (mkWorld fs' can_write out)).2
      ∧ stdout (main (H:=RefLibrary.library) args (mkWorld fs can_write out)).1
        = stdout
            (main (H:=RefLibrary.library) args (mkWorld fs' can_write out)).1.
Proof.
  intros args fs fs'.
  apply (output_depends_only_on_inputs (H:=RefLibrary.library) args fs fs').
  - vm_compute. reflexivity.
  - vm_compute. reflexivity.
Defined.



(** ** Student elements read back *)

Section student_roundtrip.
Context `{Library}.



End student_roundtrip.



(** ** The JSON output is ASCII *)

Section ascii_facts.












End ascii_facts.

